(** * sdkConfigurator: the manifest import-structure resolution engine

    A shallow embedding of [sdkConfigurator.py] (classes [ManifestConfig],
    [ManifestExplorer] and the non-widget part of [ManifestConfiguratorGUI])
    together with the properties of its import classifier, structure
    analyzer, category grouper, selection model, document generator and
    saved-configuration record.

    Conventions of the embedding.
    - A Python [str] is a [string]: a sequence of bytes (the UTF-8 encoding
      of the text).  Every test the program makes on strings ([endswith],
      [in], [replace], [split], ordering) is a test on code points that
      UTF-8 preserves.
    - A Python [dict] is an association list in insertion order whose keys
      are pairwise distinct; [d[k] = v] is [Dict.set].
    - A value coming out of [yaml.safe_load] or [response.json()] is a
      [pyval]; an operation that raises returns [Raise e].
    - The network and the two parsers are parameters of the explorer. *)

From Stdlib Require Import List String Ascii Bool Arith ZArith Lia Setoid.
From Stdlib Require Import Permutation Sorted.
Import ListNotations.
Open Scope string_scope.

Set Implicit Arguments.

(* ================================================================== *)
(** ** Python strings *)

Module PyStr.

(** [s.endswith(suf)] *)
Fixpoint endswith (suf s : string) : bool :=
  String.eqb s suf ||
  match s with
  | EmptyString => false
  | String _ s' => endswith suf s'
  end.

(** [sub in s] *)
Fixpoint contains (sub s : string) : bool :=
  String.prefix sub s ||
  match s with
  | EmptyString => false
  | String _ s' => contains sub s'
  end.

(** [s.replace(old, new)] for a non-empty [old]: the occurrences of [old]
    are found from the left and do not overlap; [skip] counts the
    characters of the occurrence just replaced that are still to be
    dropped. *)
Fixpoint replace_from (old new s : string) (skip : nat) : string :=
  match s with
  | EmptyString => EmptyString
  | String c s' =>
      match skip with
      | S k => replace_from old new s' k
      | O =>
          if String.prefix old s
          then new ++ replace_from old new s' (String.length old - 1)
          else String c (replace_from old new s' 0)
      end
  end.

(** [s.replace("", new)] puts [new] before every character and at the
    end. *)
Fixpoint intersperse_all (new s : string) : string :=
  match s with
  | EmptyString => new
  | String c s' => new ++ String c (intersperse_all new s')
  end.

Definition replace (old new s : string) : string :=
  match old with
  | EmptyString => intersperse_all new s
  | _ => replace_from old new s 0
  end.

(** [s.split(sep)] for a one-character separator: the result is never
    empty, [cur] holds the segment being read. *)
Fixpoint split_from (sep : ascii) (s : string) (cur : string) : list string :=
  match s with
  | EmptyString => [cur]
  | String c s' =>
      if Ascii.eqb c sep
      then cur :: split_from sep s' EmptyString
      else split_from sep s' (cur ++ String c EmptyString)
  end.

Definition split (sep : ascii) (s : string) : list string :=
  split_from sep s EmptyString.

(** [sep.join(l)] *)
Definition join (sep : string) (l : list string) : string :=
  String.concat sep l.

(** The text after the last [sep] of [s] (all of [s] when it has none). *)
Definition last_segment (sep : ascii) (s : string) : string :=
  List.last (split sep s) EmptyString.

End PyStr.

(* ================================================================== *)
(** ** Python values, exceptions and ordered dictionaries *)

Inductive exn : Type :=
| AttributeError
| TypeError
| KeyError
| ValueError
| HTTPError
| RequestException.

Inductive result (A : Type) : Type :=
| Ok (a : A)
| Raise (e : exn).

Arguments Ok {A} a.
Arguments Raise {A} e.

Definition bind {A B : Type} (r : result A) (k : A -> result B) : result B :=
  match r with
  | Ok a => k a
  | Raise e => Raise e
  end.

Notation "x <- r ;; k" := (bind r (fun x => k))
  (at level 61, r at next level, right associativity).

Module Dict.

Definition dict (V : Type) : Type := list (string * V).

Definition keys {V} (d : dict V) : list string := map fst d.
Definition values {V} (d : dict V) : list V := map snd d.

(** [d.get(k)] as an option *)
Fixpoint get {V} (d : dict V) (k : string) : option V :=
  match d with
  | [] => None
  | (k', v) :: d' => if String.eqb k' k then Some v else get d' k
  end.

(** [k in d] *)
Definition mem {V} (d : dict V) (k : string) : bool :=
  match get d k with Some _ => true | None => false end.

(** [d[k] = v]: an existing key keeps its place, a new one goes last. *)
Fixpoint set {V} (d : dict V) (k : string) (v : V) : dict V :=
  match d with
  | [] => [(k, v)]
  | (k', v') :: d' =>
      if String.eqb k' k then (k', v) :: d' else (k', v') :: set d' k v
  end.

End Dict.

(** The values [yaml.safe_load] and [response.json()] produce.  [PInt]
    stands for every number: no operation of the program tells numbers
    apart except by truth value. *)
#[warnings="-register-all"]
Inductive pyval : Type :=
| PNone
| PBool (b : bool)
| PInt (z : Z)
| PStr (s : string)
| PList (l : list pyval)
| PDict (d : list (string * pyval)).

Module Py.

(** [bool(v)] *)
Definition truthy (v : pyval) : bool :=
  match v with
  | PNone => false
  | PBool b => b
  | PInt z => negb (Z.eqb z 0)
  | PStr s => negb (String.eqb s "")
  | PList l => match l with [] => false | _ => true end
  | PDict d => match d with [] => false | _ => true end
  end.

(** [v.get(k, dflt)]: only a dict has [get]. *)
Definition get (v : pyval) (k : string) (dflt : pyval) : result pyval :=
  match v with
  | PDict d => Ok (match Dict.get d k with Some x => x | None => dflt end)
  | _ => Raise AttributeError
  end.

(** [v[k]] for a string [k] *)
Definition getitem (v : pyval) (k : string) : result pyval :=
  match v with
  | PDict d => match Dict.get d k with Some x => Ok x | None => Raise KeyError end
  | _ => Raise TypeError
  end.

(** The values [for x in v] goes through (the keys of a dict, the
    characters of a string). *)
Definition iter (v : pyval) : result (list pyval) :=
  match v with
  | PList l => Ok l
  | PDict d => Ok (map (fun kv => PStr (fst kv)) d)
  | PStr s => Ok (map (fun c => PStr (String c EmptyString)) (list_ascii_of_string s))
  | PNone | PBool _ | PInt _ => Raise TypeError
  end.

(** [k in v] for a string [k] *)
Definition contains_str (k : string) (v : pyval) : result bool :=
  match v with
  | PDict d => Ok (Dict.mem d k)
  | PList l =>
      Ok (existsb (fun x => match x with PStr s => String.eqb s k | _ => false end) l)
  | PStr s => Ok (PyStr.contains k s)
  | PNone | PBool _ | PInt _ => Raise TypeError
  end.

End Py.

(* ================================================================== *)
(** ** [pathlib]: the [name] of a path

    [Path(p).name] on a POSIX host: the path is cut at every ['/'], empty
    components and ['.'] components are dropped, and the name is the last
    component left (the empty string when none is left). *)

Definition path_component (x : string) : bool :=
  negb (String.eqb x "") && negb (String.eqb x ".").

Definition Path_parts (p : string) : list string :=
  filter path_component (PyStr.split "/"%char p).

Definition Path_name (p : string) : string :=
  List.last (Path_parts p) "".

(* ================================================================== *)
(** ** ManifestExplorer *)

(** What [requests.get] returns when it does not raise. *)
Record response : Type := {
  status_code : Z;
  text : string
}.

(** [response.raise_for_status()] *)
Definition raise_for_status (r : response) : result unit :=
  if (400 <=? status_code r)%Z && (status_code r <? 600)%Z
  then Raise HTTPError else Ok tt.

(** One element of a directory listing:
    [{'name': .., 'filename': .., 'path': ..}]. *)
Record content_item : Type := {
  c_name : string;
  c_filename : string;
  c_path : string
}.

Inductive import_type : Type := unknown | file | directory.

(** The [info] dictionary of an import entry:
    [{'path': .., 'type': .., 'contents': .., 'filename': ..}], the last key
    being present for files only. *)
Record import_info : Type := {
  i_path : string;
  i_type : import_type;
  i_contents : list content_item;
  i_filename : option string
}.

Record ManifestExplorer : Type := {
  manifest_url : string;
  base_url : string;
  manifest : pyval;
  import_structure : Dict.dict import_info
}.

Definition default_manifest_url : string :=
  "https://raw.githubusercontent.com/nxp-mcuxpresso/mcuxsdk-manifests/main/west.yml".

(** [ManifestExplorer.__init__] *)
Definition ManifestExplorer_init (url : option string) : ManifestExplorer :=
  let manifest_url :=
    match url with
    | Some u => if String.eqb u "" then default_manifest_url else u
    | None => default_manifest_url
    end in
  {| manifest_url := manifest_url;
     base_url := PyStr.join "/" (removelast (PyStr.split "/"%char manifest_url));
     manifest := PNone;
     import_structure := [] |}.

(** The dictionary [_fetch_directory_contents] appends for an entry called
    [name]. *)
Definition listing_item (dir_path name : string) : content_item :=
  {| c_name := PyStr.replace ".yml" "" name;
     c_filename := name;
     c_path := dir_path ++ name |}.

(** A method of [str] called on [v]: an [AttributeError] on anything else. *)
Definition str_method (v : pyval) : result string :=
  match v with
  | PStr s => Ok s
  | _ => Raise AttributeError
  end.

Section Explorer.

(** The world outside: the HTTP client and the two parsers. *)
Variable requests_get : string -> result response.
Variable yaml_safe_load : string -> result pyval.
Variable json_loads : string -> result pyval.

(** [fetch_manifest]: the result and the explorer afterwards. *)
Definition fetch_manifest (self : ManifestExplorer)
  : result pyval * ManifestExplorer :=
  match (r <- requests_get (manifest_url self) ;;
         _ <- raise_for_status r ;;
         yaml_safe_load (text r)) with
  | Ok m =>
      (Ok m, {| manifest_url := manifest_url self;
                base_url := base_url self;
                manifest := m;
                import_structure := import_structure self |})
  | Raise e => (Raise e, self)
  end.

Definition api_url (self : ManifestExplorer) (dir_path : string) : string :=
  PyStr.replace "/west.yml" ("/" ++ dir_path)
    (PyStr.replace "/main/" "/contents/"
       (PyStr.replace "raw.githubusercontent.com" "api.github.com/repos"
          (manifest_url self))).

(** The loop [for f in files] of [_fetch_directory_contents]. *)
Fixpoint collect_contents (dir_path : string) (files : list pyval)
    (contents : list content_item) : result (list content_item) :=
  match files with
  | [] => Ok contents
  | f :: files' =>
      n <- Py.getitem f "name" ;;
      name <- str_method n ;;
      if PyStr.endswith ".yml" name
      then collect_contents dir_path files'
             (contents ++ [listing_item dir_path name])%list
      else collect_contents dir_path files' contents
  end.

(** The [try] block of [_fetch_directory_contents]: [Ok (Some c)] when it
    returns [c], [Ok None] when it is left without returning. *)
Definition fetch_directory_try (self : ManifestExplorer) (dir_path : string)
  : result (option (list content_item)) :=
  r <- requests_get (api_url self dir_path) ;;
  if (status_code r =? 200)%Z
  then files <- json_loads (text r) ;;
       fs <- Py.iter files ;;
       contents <- collect_contents dir_path fs [] ;;
       Ok (Some contents)
  else Ok None.

Definition _fetch_directory_contents (self : ManifestExplorer)
    (dir_path : string) : list content_item :=
  match fetch_directory_try self dir_path with
  | Ok (Some contents) => contents
  | Ok None | Raise _ => []
  end.

Definition _analyze_import_path (self : ManifestExplorer) (path : string)
  : import_info :=
  if PyStr.endswith ".yml" path then
    {| i_path := path; i_type := file; i_contents := [];
       i_filename := Some (Path_name path) |}
  else if PyStr.endswith "/" path then
    {| i_path := path; i_type := directory;
       i_contents := _fetch_directory_contents self path;
       i_filename := None |}
  else
    let dir_contents := _fetch_directory_contents self (path ++ "/") in
    match dir_contents with
    | _ :: _ =>
        {| i_path := path ++ "/"; i_type := directory;
           i_contents := dir_contents; i_filename := None |}
    | [] =>
        {| i_path := path; i_type := file; i_contents := [];
           i_filename := Some (Path_name path) |}
    end.

(** [manifest.get('manifest', {}).get('self', {}).get('import', [])] *)
Definition self_imports (m : pyval) : result pyval :=
  a <- Py.get m "manifest" (PDict []) ;;
  b <- Py.get a "self" (PDict []) ;;
  Py.get b "import" (PList []).

(** The loop of [analyze_imports]. *)
Definition analyze_loop (self : ManifestExplorer) (imports : list pyval)
  : Dict.dict import_info :=
  fold_left
    (fun structure import_path =>
       match import_path with
       | PStr p => Dict.set structure p (_analyze_import_path self p)
       | _ => structure
       end)
    imports [].

Definition analyze_imports (self : ManifestExplorer)
  : result (Dict.dict import_info) * ManifestExplorer :=
  let '(fetched, self1) :=
    if negb (Py.truthy (manifest self))
    then fetch_manifest self
    else (Ok (manifest self), self) in
  match (_ <- fetched ;;
         imports <- self_imports (manifest self1) ;;
         Py.iter imports) with
  | Ok imports =>
      let structure := analyze_loop self1 imports in
      (Ok structure,
       {| manifest_url := manifest_url self1;
          base_url := base_url self1;
          manifest := manifest self1;
          import_structure := structure |})
  | Raise e => (Raise e, self1)
  end.

(** [get_all_configuration]: the four keys of the returned dictionary. *)
Record nxp_configuration : Type := {
  cfg_remotes : pyval;
  cfg_defaults : pyval;
  cfg_group_filter : pyval;
  cfg_self : pyval
}.

Definition get_all_configuration (self : ManifestExplorer)
  : result nxp_configuration :=
  m1 <- Py.get (manifest self) "manifest" (PDict []) ;;
  remotes <- Py.get m1 "remotes" (PList []) ;;
  m2 <- Py.get (manifest self) "manifest" (PDict []) ;;
  defaults <- Py.get m2 "defaults" (PDict []) ;;
  m3 <- Py.get (manifest self) "manifest" (PDict []) ;;
  group_filter <- Py.get m3 "group-filter" (PList []) ;;
  m4 <- Py.get (manifest self) "manifest" (PDict []) ;;
  self_ <- Py.get m4 "self" (PDict []) ;;
  Ok {| cfg_remotes := remotes; cfg_defaults := defaults;
        cfg_group_filter := group_filter; cfg_self := self_ |}.

End Explorer.

(* ================================================================== *)
(** ** ManifestConfig *)

(** The dataclass.  A field holds whatever value it was given: Python
    checks no annotation, and [generate_manifest_dict] inspects the values
    of [imports] with [isinstance]. *)
Record ManifestConfig : Type := {
  imports : pyval;
  group_filters : pyval;
  use_nxp_remotes : pyval;
  use_nxp_defaults : pyval;
  use_nxp_west_commands : pyval;
  created_at : pyval;
  nxp_manifest_revision : pyval;
  nxp_manifest_url : pyval
}.

(** [__post_init__]; [now] is [datetime.now().isoformat()]. *)
Definition post_init (now : string) (c : ManifestConfig) : ManifestConfig :=
  match created_at c with
  | PNone =>
      {| imports := imports c; group_filters := group_filters c;
         use_nxp_remotes := use_nxp_remotes c;
         use_nxp_defaults := use_nxp_defaults c;
         use_nxp_west_commands := use_nxp_west_commands c;
         created_at := PStr now;
         nxp_manifest_revision := nxp_manifest_revision c;
         nxp_manifest_url := nxp_manifest_url c |}
  | _ => c
  end.

(** The field defaults of the dataclass. *)
Definition ManifestConfig_defaults : ManifestConfig :=
  {| imports := PDict []; group_filters := PList [];
     use_nxp_remotes := PBool true; use_nxp_defaults := PBool true;
     use_nxp_west_commands := PBool true; created_at := PNone;
     nxp_manifest_revision := PStr "main"; nxp_manifest_url := PNone |}.

(** [ManifestConfig()] *)
Definition ManifestConfig_new (now : string) : ManifestConfig :=
  post_init now ManifestConfig_defaults.

(** One keyword argument of the call that unpacks [data] into
    [ManifestConfig]; a keyword that is
    not a field is a [TypeError]. *)
Definition set_field (c : ManifestConfig) (k : string) (v : pyval)
  : result ManifestConfig :=
  if String.eqb k "imports" then
    Ok {| imports := v; group_filters := group_filters c;
          use_nxp_remotes := use_nxp_remotes c;
          use_nxp_defaults := use_nxp_defaults c;
          use_nxp_west_commands := use_nxp_west_commands c;
          created_at := created_at c;
          nxp_manifest_revision := nxp_manifest_revision c;
          nxp_manifest_url := nxp_manifest_url c |}
  else if String.eqb k "group_filters" then
    Ok {| imports := imports c; group_filters := v;
          use_nxp_remotes := use_nxp_remotes c;
          use_nxp_defaults := use_nxp_defaults c;
          use_nxp_west_commands := use_nxp_west_commands c;
          created_at := created_at c;
          nxp_manifest_revision := nxp_manifest_revision c;
          nxp_manifest_url := nxp_manifest_url c |}
  else if String.eqb k "use_nxp_remotes" then
    Ok {| imports := imports c; group_filters := group_filters c;
          use_nxp_remotes := v;
          use_nxp_defaults := use_nxp_defaults c;
          use_nxp_west_commands := use_nxp_west_commands c;
          created_at := created_at c;
          nxp_manifest_revision := nxp_manifest_revision c;
          nxp_manifest_url := nxp_manifest_url c |}
  else if String.eqb k "use_nxp_defaults" then
    Ok {| imports := imports c; group_filters := group_filters c;
          use_nxp_remotes := use_nxp_remotes c;
          use_nxp_defaults := v;
          use_nxp_west_commands := use_nxp_west_commands c;
          created_at := created_at c;
          nxp_manifest_revision := nxp_manifest_revision c;
          nxp_manifest_url := nxp_manifest_url c |}
  else if String.eqb k "use_nxp_west_commands" then
    Ok {| imports := imports c; group_filters := group_filters c;
          use_nxp_remotes := use_nxp_remotes c;
          use_nxp_defaults := use_nxp_defaults c;
          use_nxp_west_commands := v;
          created_at := created_at c;
          nxp_manifest_revision := nxp_manifest_revision c;
          nxp_manifest_url := nxp_manifest_url c |}
  else if String.eqb k "created_at" then
    Ok {| imports := imports c; group_filters := group_filters c;
          use_nxp_remotes := use_nxp_remotes c;
          use_nxp_defaults := use_nxp_defaults c;
          use_nxp_west_commands := use_nxp_west_commands c;
          created_at := v;
          nxp_manifest_revision := nxp_manifest_revision c;
          nxp_manifest_url := nxp_manifest_url c |}
  else if String.eqb k "nxp_manifest_revision" then
    Ok {| imports := imports c; group_filters := group_filters c;
          use_nxp_remotes := use_nxp_remotes c;
          use_nxp_defaults := use_nxp_defaults c;
          use_nxp_west_commands := use_nxp_west_commands c;
          created_at := created_at c;
          nxp_manifest_revision := v;
          nxp_manifest_url := nxp_manifest_url c |}
  else if String.eqb k "nxp_manifest_url" then
    Ok {| imports := imports c; group_filters := group_filters c;
          use_nxp_remotes := use_nxp_remotes c;
          use_nxp_defaults := use_nxp_defaults c;
          use_nxp_west_commands := use_nxp_west_commands c;
          created_at := created_at c;
          nxp_manifest_revision := nxp_manifest_revision c;
          nxp_manifest_url := v |}
  else Raise TypeError.

Fixpoint set_fields (c : ManifestConfig) (kwargs : list (string * pyval))
  : result ManifestConfig :=
  match kwargs with
  | [] => Ok c
  | (k, v) :: kwargs' => c' <- set_field c k v ;; set_fields c' kwargs'
  end.

(** [ManifestConfig] called with the keyword arguments unpacked from
    [data], which has to be a mapping. *)
Definition ManifestConfig_kwargs (now : string) (data : pyval)
  : result ManifestConfig :=
  match data with
  | PDict kwargs =>
      c <- set_fields ManifestConfig_defaults kwargs ;;
      Ok (post_init now c)
  | _ => Raise TypeError
  end.

(** The dictionary [save_config] hands to [json.dump]. *)
Definition config_dict (c : ManifestConfig) : pyval :=
  PDict [ ("imports", imports c);
          ("group_filters", group_filters c);
          ("use_nxp_remotes", use_nxp_remotes c);
          ("use_nxp_defaults", use_nxp_defaults c);
          ("use_nxp_west_commands", use_nxp_west_commands c);
          ("created_at", created_at c);
          ("nxp_manifest_revision", nxp_manifest_revision c);
          ("nxp_manifest_url", nxp_manifest_url c) ].

(* ================================================================== *)
(** ** ManifestConfiguratorGUI: the state behind the widgets *)

(** A Tk variable; [value] is what [var.get()] returns. *)
Inductive tk_var : Type :=
| BooleanVar (value : bool)
| StringVar (value : string).

Record GUI : Type := {
  explorer : ManifestExplorer;
  config : ManifestConfig;
  import_vars : Dict.dict tk_var;
  directory_selections : Dict.dict (Dict.dict bool);
  use_remotes_var : bool;
  use_defaults_var : bool;
  use_commands_var : bool;
  group_filters_text : string
}.

Definition with_vars (self : GUI) (iv : Dict.dict tk_var)
    (ds : Dict.dict (Dict.dict bool)) : GUI :=
  {| explorer := explorer self; config := config self;
     import_vars := iv; directory_selections := ds;
     use_remotes_var := use_remotes_var self;
     use_defaults_var := use_defaults_var self;
     use_commands_var := use_commands_var self;
     group_filters_text := group_filters_text self |}.

Definition with_config (self : GUI) (c : ManifestConfig) : GUI :=
  {| explorer := explorer self; config := c;
     import_vars := import_vars self;
     directory_selections := directory_selections self;
     use_remotes_var := use_remotes_var self;
     use_defaults_var := use_defaults_var self;
     use_commands_var := use_commands_var self;
     group_filters_text := group_filters_text self |}.

(** [__init__] and the variables [create_settings_tab] creates; the text
    box of the group filters starts empty. *)
Definition GUI_init (now : string) : GUI :=
  {| explorer := ManifestExplorer_init None;
     config := ManifestConfig_new now;
     import_vars := []; directory_selections := [];
     use_remotes_var := true; use_defaults_var := true;
     use_commands_var := true; group_filters_text := "" |}.

(** *** Categories *)

Inductive category : Type := Base_Files | Devices | Middleware | RTOS | Other.

Definition category_name (c : category) : string :=
  match c with
  | Base_Files => "Base Files"
  | Devices => "Devices"
  | Middleware => "Middleware"
  | RTOS => "RTOS"
  | Other => "Other"
  end.

Definition all_categories : list category :=
  [Base_Files; Devices; Middleware; RTOS; Other].

Definition category_eqb (a b : category) : bool :=
  match a, b with
  | Base_Files, Base_Files | Devices, Devices | Middleware, Middleware
  | RTOS, RTOS | Other, Other => true
  | _, _ => false
  end.

(** The [if]/[elif] chain of [populate_imports]. *)
Definition categorize (norm_path : string) : category :=
  if PyStr.contains "base.yml" norm_path || PyStr.contains "internal.yml" norm_path
  then Base_Files
  else if PyStr.contains "devices" norm_path then Devices
  else if PyStr.contains "middleware" norm_path then Middleware
  else if PyStr.contains "rtos" norm_path then RTOS
  else Other.

Definition category_items : Type := list (string * import_info).

(** [categories = {'Base Files': [], ..., 'Other': []}] *)
Definition categories_init : Dict.dict category_items :=
  map (fun c => (category_name c, [])) all_categories.

(** [categories[name].append(item)] *)
Definition categories_append (categories : Dict.dict category_items)
    (name : string) (item : string * import_info) : Dict.dict category_items :=
  match Dict.get categories name with
  | Some items => Dict.set categories name (items ++ [item])%list
  | None => categories
  end.

(** The loop "Categorize imports" of [populate_imports]. *)
Definition categorize_imports (import_structure : Dict.dict import_info)
  : Dict.dict category_items :=
  fold_left
    (fun categories entry =>
       let norm_path := i_path (snd entry) in
       categories_append categories (category_name (categorize norm_path))
         (norm_path, snd entry))
    import_structure categories_init.

(** *** Default selections *)

Definition _guess_default (path : string) : bool :=
  if PyStr.contains "base.yml" path || PyStr.contains "internal.yml" path then true
  else if PyStr.contains "rtos" path then true
  else if PyStr.contains "devices/" path && PyStr.endswith ".yml" path then false
  else if PyStr.contains "middleware/" path && PyStr.endswith "/" path then true
  else false.

(** [sorted(contents, key=lambda x: x['name'])]: a stable sort. *)
Fixpoint insert_by_name (x : content_item) (l : list content_item)
  : list content_item :=
  match l with
  | [] => [x]
  | y :: l' =>
      if String.leb (c_name x) (c_name y) then x :: y :: l'
      else y :: insert_by_name x l'
  end.

Fixpoint sorted_by_name (l : list content_item) : list content_item :=
  match l with
  | [] => []
  | x :: l' => insert_by_name x (sorted_by_name l')
  end.

Definition create_directory_options (self : GUI) (dir_path : string)
    (contents : list content_item) : GUI :=
  let file_vars :=
    fold_left (fun file_vars item => Dict.set file_vars (c_path item) false)
      (sorted_by_name contents) [] in
  with_vars self
    (Dict.set (import_vars self) dir_path (StringVar "all"))
    (Dict.set (directory_selections self) dir_path file_vars).

(** The body of the loop of [create_category_section]; [info['filename']]
    is read for the label of a file entry and is a [KeyError] when the key
    is missing. *)
Definition create_item (self : GUI) (item : string * import_info) : result GUI :=
  let info := snd item in
  let display_path := i_path info in
  match i_type info with
  | file =>
      match i_filename info with
      | Some _ =>
          Ok (with_vars self
                (Dict.set (import_vars self) display_path
                   (BooleanVar (_guess_default display_path)))
                (directory_selections self))
      | None => Raise KeyError
      end
  | directory =>
      match i_contents info with
      | _ :: _ => Ok (create_directory_options self display_path (i_contents info))
      | [] =>
          Ok (with_vars self
                (Dict.set (import_vars self) display_path (BooleanVar false))
                (directory_selections self))
      end
  | unknown => Ok self
  end.

Fixpoint create_category_section (self : GUI) (items : category_items)
  : result GUI :=
  match items with
  | [] => Ok self
  | item :: items' =>
      self' <- create_item self item ;;
      create_category_section self' items'
  end.

(** The loop "Create UI for each category" of [populate_imports]. *)
Fixpoint create_sections (self : GUI) (categories : Dict.dict category_items)
  : result GUI :=
  match categories with
  | [] => Ok self
  | (_, []) :: categories' => create_sections self categories'
  | (_, items) :: categories' =>
      self' <- create_category_section self items ;;
      create_sections self' categories'
  end.

Definition populate_imports (self : GUI)
    (import_structure : Dict.dict import_info) : result GUI :=
  create_sections (with_vars self [] []) (categorize_imports import_structure).

(** *** From the widgets to the configuration *)

(** The loop "Imports" of [build_config_from_ui]. *)
Definition build_imports (import_vars : Dict.dict tk_var)
    (directory_selections : Dict.dict (Dict.dict bool))
  : Dict.dict pyval :=
  fold_left
    (fun imports entry =>
       let path := fst entry in
       match snd entry with
       | BooleanVar b => Dict.set imports path (PBool b)
       | StringVar mode =>
           if String.eqb mode "all" then Dict.set imports path (PBool true)
           else if String.eqb mode "none" then Dict.set imports path (PBool false)
           else if String.eqb mode "selective" then
             let selected :=
               match Dict.get directory_selections path with
               | Some file_vars =>
                   map (fun fv => PStr (fst fv)) (filter snd file_vars)
               | None => []
               end in
             Dict.set imports path (PList selected)
           else imports
       end)
    import_vars [].

Section BuildConfig.

(** [str.strip()], and the clock read by [ManifestConfig()]. *)
Variable strip : string -> string.
Variable now : string.

(** [[f.strip() for f in filters_text.split('\n') if f.strip()]] *)
Definition parse_group_filters (filters_text : string) : list string :=
  map strip
    (filter (fun f => negb (String.eqb (strip f) ""))
       (PyStr.split "010"%char filters_text)).

Definition build_config_from_ui (self : GUI) : GUI :=
  let c := ManifestConfig_new now in
  let filters_text := strip (group_filters_text self) in
  with_config self
    {| imports := PDict (build_imports (import_vars self)
                           (directory_selections self));
       group_filters :=
         if String.eqb filters_text "" then group_filters c
         else PList (map PStr (parse_group_filters filters_text));
       use_nxp_remotes := PBool (use_remotes_var self);
       use_nxp_defaults := PBool (use_defaults_var self);
       use_nxp_west_commands := PBool (use_commands_var self);
       created_at := created_at c;
       nxp_manifest_revision := nxp_manifest_revision c;
       nxp_manifest_url := PStr (manifest_url (explorer self)) |}.

End BuildConfig.

(** *** Document generation *)

(** [value.items()] of a configuration field *)
Definition py_items (v : pyval) : result (list (string * pyval)) :=
  match v with
  | PDict d => Ok d
  | _ => Raise AttributeError
  end.

(** The loop "Build imports" of [generate_manifest_dict]. *)
Fixpoint flatten_loop (items : list (string * pyval)) (acc : list pyval)
  : result (list pyval) :=
  match items with
  | [] => Ok acc
  | (path, value) :: items' =>
      match value with
      | PBool true => flatten_loop items' (acc ++ [PStr path])%list
      | PBool false => flatten_loop items' acc
      | PList l => flatten_loop items' (acc ++ l)%list
      | _ => flatten_loop items' acc
      end
  end.

(** [flatten]: the import list of the configuration. *)
Definition flatten (c : ManifestConfig) : result (list pyval) :=
  items <- py_items (imports c) ;;
  flatten_loop items [].

Definition generate_manifest_dict (self : GUI) : result pyval :=
  let c := config self in
  if Py.truthy (manifest (explorer self)) then
    nxp_config <- get_all_configuration (explorer self) ;;
    let m0 : Dict.dict pyval := [] in
    let m1 :=
      if Py.truthy (use_nxp_remotes c) && Py.truthy (cfg_remotes nxp_config)
      then Dict.set m0 "remotes" (cfg_remotes nxp_config) else m0 in
    let m2 :=
      if Py.truthy (use_nxp_defaults c) && Py.truthy (cfg_defaults nxp_config)
      then Dict.set m1 "defaults" (cfg_defaults nxp_config) else m1 in
    let m3 :=
      if Py.truthy (group_filters c)
      then Dict.set m2 "group-filter" (group_filters c) else m2 in
    let s0 : Dict.dict pyval := [] in
    has_path <- Py.contains_str "path" (cfg_self nxp_config) ;;
    s1 <- (if has_path
           then p <- Py.getitem (cfg_self nxp_config) "path" ;;
                Ok (Dict.set s0 "path" p)
           else Ok s0) ;;
    s2 <- (if Py.truthy (use_nxp_west_commands c)
           then w <- Py.get (cfg_self nxp_config) "west-commands" PNone ;;
                if Py.truthy w
                then w' <- Py.getitem (cfg_self nxp_config) "west-commands" ;;
                     Ok (Dict.set s1 "west-commands" w')
                else Ok s1
           else Ok s1) ;;
    let m4 := Dict.set m3 "self" (PDict s2) in
    imports_list <- flatten c ;;
    d <- Py.get (PDict m4) "defaults" (PDict []) ;;
    remote <- Py.get d "remote" (PStr "nxp-mcuxpresso") ;;
    let m5 :=
      Dict.set m4 "projects"
        (PList [ PDict [ ("name", PStr "mcuxsdk-manifests");
                         ("remote", remote);
                         ("revision", PStr "main");
                         ("import", PList imports_list) ] ]) in
    Ok (PDict [ ("manifest", PDict m5) ])
  else
    Ok (PDict [ ("manifest", PDict []) ]).

(* ================================================================== *)
(** ** Two worlds to run the explorer in *)

Module World.

(** No network at all: every request raises. *)
Definition offline_get (url : string) : result response :=
  Raise RequestException.

Definition no_parse (t : string) : result pyval :=
  Raise ValueError.

(** A remote with a root document and one directory, [devices/], that
    holds [mcx.yml], [lpc.yml] and a [README.md]. *)
Definition west_url : string := default_manifest_url.

Definition devices_url : string :=
  "https://api.github.com/repos/nxp-mcuxpresso/mcuxsdk-manifests/contents/devices/".

Definition remote_get (url : string) : result response :=
  if String.eqb url west_url then Ok {| status_code := 200; text := "west" |}
  else if String.eqb url devices_url
  then Ok {| status_code := 200; text := "devices" |}
  else Ok {| status_code := 404; text := "" |}.

Definition devices_listing : pyval :=
  PList [ PDict [("name", PStr "mcx.yml"); ("type", PStr "file")];
          PDict [("name", PStr "README.md"); ("type", PStr "file")];
          PDict [("name", PStr "lpc.yml"); ("type", PStr "file")] ].

Definition remote_json (t : string) : result pyval :=
  if String.eqb t "devices" then Ok devices_listing else Raise ValueError.

Definition west_document : pyval :=
  PDict [ ("manifest",
           PDict [ ("self",
                    PDict [ ("path", PStr "manifests");
                            ("import",
                             PList [ PStr "base.yml"; PStr "devices/";
                                     PStr "middleware/foo.yml" ]) ]) ]) ].

Definition remote_yaml (t : string) : result pyval :=
  if String.eqb t "west" then Ok west_document else Raise ValueError.

Definition fresh : ManifestExplorer := ManifestExplorer_init None.

End World.

(** ** Vocabulary of the statements *)

(** [f] is a dictionary whose ['name'] is the string [n]. *)
Definition has_name (f : pyval) (n : string) : Prop :=
  exists d, f = PDict d /\ Dict.get d "name" = Some (PStr n).

(** What every element of a listing looks like. *)
Definition listed_under (dir_path : string) (it : content_item) : Prop :=
  PyStr.endswith ".yml" (c_filename it) = true /\
  it = listing_item dir_path (c_filename it).

(** The string entries of a declared import list, in declared order. *)
Definition string_entries (l : list pyval) : list string :=
  flat_map (fun v => match v with PStr s => [s] | _ => [] end) l.

(** [l] without the repetitions: every string at its first occurrence. *)
Fixpoint uniq (l : list string) : list string :=
  match l with
  | [] => []
  | x :: l' => x :: filter (fun y => negb (String.eqb x y)) (uniq l')
  end.

Definition mem_key (k : string) (ks : list string) : bool :=
  existsb (String.eqb k) ks.

(** The keys of a dictionary after [d[k] = v]. *)
Definition push_key (ks : list string) (k : string) : list string :=
  if mem_key k ks then ks else (ks ++ [k])%list.


(** [sub] occurs in [s]. *)
Definition is_substring (sub s : string) : Prop :=
  exists p q, s = p ++ sub ++ q.

(** The pairs [(norm_path, info)] that [populate_imports] files under the
    categories, in the order of the analyzer's mapping. *)
Definition categorized_items (import_structure : Dict.dict import_info)
  : category_items :=
  map (fun entry => (i_path (snd entry), snd entry)) import_structure.

Definition in_category (c : category) (item : string * import_info) : bool :=
  category_eqb (categorize (fst item)) c.

(** The five categories in their fixed order, each with its items. *)
Definition grouped (items : category_items) : Dict.dict category_items :=
  map (fun c => (category_name c, filter (in_category c) items)) all_categories.


(** An entry [populate_imports] can present: the label of a file entry
    reads [info['filename']], and the type is one of the two the
    classifier assigns. *)
Definition presentable (info : import_info) : bool :=
  match i_type info with
  | file => match i_filename info with Some _ => true | None => false end
  | directory => true
  | unknown => false
  end.

(** The children the user ticked under the directory [path], in the order
    of their check boxes. *)
Definition chosen (directory_selections : Dict.dict (Dict.dict bool))
    (path : string) : list string :=
  match Dict.get directory_selections path with
  | Some file_vars => map fst (filter snd file_vars)
  | None => []
  end.

(** What the spec says [flatten] emits for one selection: the path of an
    included file, the directory's own path in mode ALL, nothing in mode
    NONE, the chosen children in mode SELECTIVE. *)
Definition selected_paths (directory_selections : Dict.dict (Dict.dict bool))
    (selection : string * tk_var) : list string :=
  let path := fst selection in
  match snd selection with
  | BooleanVar true => [path]
  | BooleanVar false => []
  | StringVar mode =>
      if String.eqb mode "all" then [path]
      else if String.eqb mode "none" then []
      else if String.eqb mode "selective" then chosen directory_selections path
      else []
  end.

(** The check boxes under each directory: its path and the paths of its
    children. *)
Definition selections_shape (directory_selections : Dict.dict (Dict.dict bool))
  : list (string * list string) :=
  map (fun e => (fst e, Dict.keys (snd e))) directory_selections.

(** [c] is a path strictly below the directory [d]. *)
Definition below (d c : string) : Prop :=
  exists n, n <> "" /\ c = d ++ n.


(** Every check box under a directory stands for a path strictly below
    it. *)
Definition children_under (directory_selections : Dict.dict (Dict.dict bool))
  : Prop :=
  Forall (fun e => Forall (below (fst e)) (snd e))
    (selections_shape directory_selections).

Definition var_is_boolean (v : tk_var) : bool :=
  match v with BooleanVar _ => true | StringVar _ => false end.

(** The widgets of the import panel: which variable stands under which
    path, and the check boxes of each directory.  The user changes the
    values of the variables, never the widgets. *)
Definition widgets (self : GUI)
  : list (string * bool) * list (string * list string) :=
  (map (fun e => (fst e, var_is_boolean (snd e))) (import_vars self),
   selections_shape (directory_selections self)).

(** The normalized paths of the structure that fall in category [c], in
    the order of the structure. *)
Definition paths_in_category (import_structure : Dict.dict import_info)
    (c : category) : list string :=
  filter (fun p => category_eqb (categorize p) c)
    (map i_path (Dict.values import_structure)).

(** The order in which the import panel is laid out: category by
    category, each path once. *)
Definition presentation_order (import_structure : Dict.dict import_info)
  : list string :=
  uniq (flat_map (paths_in_category import_structure) all_categories).


(** What the classifier guarantees of an entry: it can be presented, and
    its contents were listed under its normalized path. *)
Definition well_classified (info : import_info) : Prop :=
  presentable info = true /\
  Forall (listed_under (i_path info)) (i_contents info).

(** What [generate_manifest_dict] appends for one item of
    [config.imports]. *)
Definition emitted (item : string * pyval) : list pyval :=
  match snd item with
  | PBool true => [PStr (fst item)]
  | PList l => l
  | _ => []
  end.

(** What [build_config_from_ui] stores in [config.imports] for one
    variable of the panel. *)
Definition stored (directory_selections : Dict.dict (Dict.dict bool))
    (entry : string * tk_var) : list (string * pyval) :=
  let path := fst entry in
  match snd entry with
  | BooleanVar b => [(path, PBool b)]
  | StringVar mode =>
      if String.eqb mode "all" then [(path, PBool true)]
      else if String.eqb mode "none" then [(path, PBool false)]
      else if String.eqb mode "selective"
      then [(path, PList (map PStr (chosen directory_selections path)))]
      else []
  end.

(** ** Example panels *)

Module Panel.

(** The root document of the example remote, analyzed and laid out. *)
Definition structure : Dict.dict import_info :=
  analyze_loop World.remote_get World.remote_json World.fresh
    [PStr "base.yml"; PStr "devices/"; PStr "middleware/foo.yml"].

(** The panel after the user included [middleware/foo.yml], switched
    [devices/] to "Select specific files" and ticked [mcx.yml]. *)
Definition edited : GUI :=
  {| explorer := World.fresh;
     config := ManifestConfig_new "";
     import_vars := [ ("base.yml", BooleanVar true);
                      ("devices/", StringVar "selective");
                      ("middleware/foo.yml", BooleanVar true) ];
     directory_selections :=
       [ ("devices/", [ ("devices/lpc.yml", false); ("devices/mcx.yml", true) ]) ];
     use_remotes_var := true; use_defaults_var := true;
     use_commands_var := true; group_filters_text := "" |}.

(** A root document that declares [rtos.yml] before [base.yml]. *)
Definition rtos_first : list pyval := [PStr "rtos.yml"; PStr "base.yml"].

Definition no_strip (s : string) : string := s.

End Panel.


(** ** Saving and loading a configuration

    [save_config] writes [json.dump(config_dict)] and [load_config] builds
    [ManifestConfig] from the keyword arguments [json.load] returns.  The
    JSON codec is the standard library's and is taken as a parameter. *)

Definition serialize {file : Type} (json_dump : pyval -> file)
    (c : ManifestConfig) : file :=
  json_dump (config_dict c).

Definition deserialize {file : Type} (json_load : file -> result pyval)
    (now : string) (f : file) : result ManifestConfig :=
  data <- json_load f ;;
  ManifestConfig_kwargs now data.

(** A configuration as [build_config_from_ui] leaves it. *)
Definition saved_example : ManifestConfig :=
  config (build_config_from_ui Panel.no_strip "2024-05-01T10:00:00" Panel.edited).


(** ** The rest of the window *)

(** The dictionary [update_preview] hands to [yaml.dump]: the
    configuration is rebuilt from the widgets, then the document is
    generated. *)
Definition preview_manifest (strip : string -> string) (now : string)
    (self : GUI) : result pyval :=
  generate_manifest_dict (build_config_from_ui strip now self).

(** [load_config] once a file was chosen: [self.config] is replaced when
    the file decodes and the constructor accepts its keys; any exception is
    reported in a message box and the window stays as it was. *)
Definition load_config {file : Type} (json_load : file -> result pyval)
    (now : string) (f : file) (self : GUI) : GUI :=
  match deserialize json_load now f with
  | Ok c => with_config self c
  | Raise _ => self
  end.

(** The buttons "Select All" and "Select None" of a directory: every
    check box variable of [file_vars] is set. *)
Definition select_all (file_vars : Dict.dict bool) : Dict.dict bool :=
  map (fun e => (fst e, true)) file_vars.

Definition select_none (file_vars : Dict.dict bool) : Dict.dict bool :=
  map (fun e => (fst e, false)) file_vars.

(** The check boxes [create_directory_options] creates for a listing. *)
Definition file_vars_of (contents : list content_item) : Dict.dict bool :=
  fold_left (fun file_vars item => Dict.set file_vars (c_path item) false)
    (sorted_by_name contents) [].

(** ** More vocabulary *)

(** Whether an entry is part of the import list when the panel is left as
    [populate_imports] created it. *)
Definition default_included (info : import_info) : bool :=
  match i_type info with
  | file => _guess_default (i_path info)
  | directory => match i_contents info with [] => false | _ :: _ => true end
  | unknown => false
  end.

Definition included_path (import_structure : Dict.dict import_info)
    (p : string) : bool :=
  existsb (fun info => String.eqb (i_path info) p && default_included info)
    (Dict.values import_structure).

(** The variable [create_item] stores for a presentable entry. *)
Definition default_var (info : import_info) : tk_var :=
  match i_type info with
  | directory =>
      match i_contents info with
      | [] => BooleanVar false
      | _ :: _ => StringVar "all"
      end
  | _ => BooleanVar (_guess_default (i_path info))
  end.

(** The names of the dataclass fields. *)
Definition field_names : list string :=
  [ "imports"; "group_filters"; "use_nxp_remotes"; "use_nxp_defaults";
    "use_nxp_west_commands"; "created_at"; "nxp_manifest_revision";
    "nxp_manifest_url" ].

(** The value a keyword argument gives to a field, or the default. *)
Definition kwarg (kwargs : Dict.dict pyval) (k : string) (dflt : pyval) : pyval :=
  match Dict.get kwargs k with
  | Some v => v
  | None => dflt
  end.

(** A string without the character [sep]. *)
Fixpoint free_of (sep : ascii) (s : string) : bool :=
  match s with
  | EmptyString => true
  | String c s' => negb (Ascii.eqb c sep) && free_of sep s'
  end.

(** The annotations of the dataclass, as [build_config_from_ui] honours
    them. *)
Definition import_value_typed (v : pyval) : Prop :=
  (exists b, v = PBool b) \/ (exists l : list string, v = PList (map PStr l)).

Definition config_typed (c : ManifestConfig) : Prop :=
  (exists d, imports c = PDict d /\ Forall (fun e => import_value_typed (snd e)) d) /\
  (exists l : list string, group_filters c = PList (map PStr l) /\
                           Forall (fun f => f <> "") l) /\
  (exists b, use_nxp_remotes c = PBool b) /\
  (exists b, use_nxp_defaults c = PBool b) /\
  (exists b, use_nxp_west_commands c = PBool b) /\
  (exists t, created_at c = PStr t) /\
  nxp_manifest_revision c = PStr "main" /\
  (exists u, nxp_manifest_url c = PStr u).

(** A mode variable holds one of the values of its radio buttons. *)
Definition radio_value (v : tk_var) : Prop :=
  match v with
  | BooleanVar _ => True
  | StringVar mode => mode = "all" \/ mode = "selective" \/ mode = "none"
  end.

(** The section [k] of the root document's [manifest] mapping [md]. *)
Definition section (md : Dict.dict pyval) (k : string) (dflt : pyval) : pyval :=
  match Dict.get md k with
  | Some v => v
  | None => dflt
  end.


(** The variable of a panel entry is the one [create_item] stores for
    some entry of [infos] with that normalized path. *)
Definition backed (infos : list import_info) (e : string * tk_var) : Prop :=
  exists info, In info infos /\ i_path info = fst e /\ snd e = default_var info.

(** Display names in non-decreasing order. *)
Definition name_le (a b : content_item) : Prop :=
  String.leb (c_name a) (c_name b) = true.


(** The edited example panel with the example root document loaded. *)
Definition loaded_window : GUI :=
  {| explorer :=
       {| manifest_url := default_manifest_url;
          base_url := base_url World.fresh;
          manifest := World.west_document;
          import_structure := Panel.structure |};
     config := config Panel.edited;
     import_vars := import_vars Panel.edited;
     directory_selections := directory_selections Panel.edited;
     use_remotes_var := true; use_defaults_var := true;
     use_commands_var := true; group_filters_text := "" |}.

(** A window whose root document is a list. *)
Definition list_document_window : GUI :=
  {| explorer :=
       {| manifest_url := default_manifest_url;
          base_url := base_url World.fresh;
          manifest := PList [PStr "west.yml"];
          import_structure := [] |};
     config := ManifestConfig_new "";
     import_vars := []; directory_selections := [];
     use_remotes_var := true; use_defaults_var := true;
     use_commands_var := true; group_filters_text := "" |}.


(** The entry of a file called by its path. *)
Definition file_info (p : string) : import_info :=
  {| i_path := p; i_type := file; i_contents := [];
     i_filename := Some (PyStr.last_segment "/" p) |}.


(* ================================================================== *)
(** * Properties *)

Unset Implicit Arguments.

(** ** Strings *)

Lemma append_nil_r (s : string) : s ++ "" = s.
Proof. induction s as [|c s IH]; simpl; [reflexivity | now rewrite IH]. Qed.

Lemma append_assoc (a b c : string) : (a ++ b) ++ c = a ++ (b ++ c).
Proof. induction a as [|x a IH]; simpl; [reflexivity | now rewrite IH]. Qed.

Lemma append_length (a b : string) :
  String.length (a ++ b) = String.length a + String.length b.
Proof. induction a as [|x a IH]; simpl; [reflexivity | now rewrite IH]. Qed.

Lemma prefix_iff (a s : string) :
  String.prefix a s = true <-> exists q, s = a ++ q.
Proof.
  revert s; induction a as [|x a IH]; intros s.
  - destruct s; simpl; split; intros; eauto.
  - destruct s as [|y s]; simpl.
    + split; [discriminate | intros [q Hq]; discriminate].
    + destruct (ascii_dec x y) as [->|Hne].
      * rewrite IH. split; intros [q Hq]; exists q.
        -- now rewrite Hq.
        -- now inversion Hq.
      * split; [discriminate | intros [q Hq]; inversion Hq; subst; now elim Hne].
Qed.

(** [endswith] is the suffix test. *)
Lemma endswith_iff (suf s : string) :
  PyStr.endswith suf s = true <-> exists p, s = p ++ suf.
Proof.
  induction s as [|c s IH]; cbn [PyStr.endswith].
  - rewrite orb_false_r, String.eqb_eq. split.
    + intros <-. now exists "".
    + intros [p Hp]. destruct p; simpl in Hp; [assumption | discriminate].
  - rewrite orb_true_iff, String.eqb_eq, IH. split.
    + intros [<- | [p ->]]; [now exists "" | now exists (String c p)].
    + intros [p Hp]. destruct p as [|x p]; simpl in Hp.
      * now left.
      * right. inversion Hp. now exists p.
Qed.

(** [contains] is the plain substring test. *)
Lemma contains_iff (sub s : string) :
  PyStr.contains sub s = true <-> exists p q, s = p ++ sub ++ q.
Proof.
  induction s as [|c s IH].
  - cbn [PyStr.contains]. rewrite orb_false_r, prefix_iff. split.
    + intros [q Hq]. now exists "", q.
    + intros [p [q Hpq]]. destruct p; simpl in Hpq; [now exists q | discriminate].
  - cbn [PyStr.contains]. rewrite orb_true_iff, prefix_iff, IH. split.
    + intros [[q Hq] | [p [q Hpq]]].
      * now exists "", q.
      * exists (String c p), q. simpl. now rewrite Hpq.
    + intros [p [q Hpq]]. destruct p as [|x p]; simpl in Hpq.
      * left. now exists q.
      * right. inversion Hpq. now exists p, q.
Qed.

Lemma endswith_nonempty (suf s : string) :
  suf <> "" -> PyStr.endswith suf s = true -> s <> "".
Proof.
  intros Hsuf H ->. cbn [PyStr.endswith] in H. rewrite orb_false_r in H.
  apply String.eqb_eq in H. now subst.
Qed.

Lemma append_nonempty_neq (a b : string) : b <> "" -> a ++ b <> a.
Proof.
  intros Hb H. apply (f_equal String.length) in H.
  rewrite append_length in H. destruct b; [now apply Hb | simpl in H; lia].
Qed.

(** [replace] on the URL of the root document gives the listing endpoint
    of a directory. *)
Example api_url_devices : api_url World.fresh "devices/" = World.devices_url.
Proof. reflexivity. Qed.

Example replace_leftmost : PyStr.replace "aa" "b" "aaaaa" = "bba".
Proof. reflexivity. Qed.

(** ** The name of a path *)

Example path_name_file : Path_name "middleware/foo.yml" = "foo.yml".
Proof. reflexivity. Qed.

Example path_name_doubled_separator : Path_name "a//b" = "b".
Proof. reflexivity. Qed.

Example path_name_dot : Path_name "." = "".
Proof. reflexivity. Qed.

Example path_name_parent : Path_name "a/.." = "..".
Proof. reflexivity. Qed.

Lemma split_from_nonempty (sep : ascii) (s cur : string) :
  PyStr.split_from sep s cur <> [].
Proof.
  revert cur; induction s as [|c s IH]; intros cur; simpl.
  - discriminate.
  - destruct (Ascii.eqb c sep); [discriminate | apply IH].
Qed.

Lemma last_cons_nonempty {A} (x : A) (l : list A) (d : A) :
  l <> [] -> last (x :: l) d = last l d.
Proof. destruct l; [contradiction | reflexivity]. Qed.

Lemma split_from_last_empty (sep : ascii) (s cur : string) :
  last (PyStr.split_from sep s cur) "" = "" ->
  (s = "" /\ cur = "") \/ PyStr.endswith (String sep "") s = true.
Proof.
  revert cur; induction s as [|c s IH]; intros cur; cbn [PyStr.split_from].
  - intros H. left. split; [reflexivity | exact H].
  - destruct (Ascii.eqb c sep) eqn:E.
    + apply Ascii.eqb_eq in E. subst c.
      rewrite last_cons_nonempty by apply split_from_nonempty.
      intros H. right. destruct (IH _ H) as [[-> _] | H'].
      * apply endswith_iff. now exists "".
      * cbn [PyStr.endswith]. rewrite H'. apply orb_true_r.
    + intros H. right. destruct (IH _ H) as [[_ Hc] | H'].
      * destruct cur; discriminate.
      * cbn [PyStr.endswith]. rewrite H'. apply orb_true_r.
Qed.

Lemma last_In {A} (l : list A) (d : A) : l <> [] -> In (last l d) l.
Proof.
  induction l as [|x l IH]; intros Hne; [contradiction|].
  destruct l as [|y l]; [now left|].
  right. apply IH. discriminate.
Qed.

Lemma last_filter_keep {A} (f : A -> bool) (l : list A) (d : A) :
  l <> [] -> f (last l d) = true -> last (filter f l) d = last l d.
Proof.
  induction l as [|x l IH]; intros Hne Hf; [contradiction|].
  destruct l as [|y l].
  - simpl in *. now rewrite Hf.
  - assert (Hl : y :: l <> []) by discriminate.
    change (last (x :: y :: l) d) with (last (y :: l) d) in *.
    specialize (IH Hl Hf).
    assert (Hin : In (last (y :: l) d) (filter f (y :: l))).
    { apply filter_In. split; [now apply last_In | exact Hf]. }
    change (filter f (x :: y :: l))
      with (if f x then x :: filter f (y :: l) else filter f (y :: l)).
    destruct (f x); [|exact IH].
    rewrite last_cons_nonempty; [exact IH|].
    intros E. rewrite E in Hin. exact Hin.
Qed.

Lemma Path_name_last_segment (P : string) :
  PyStr.endswith "/" P = false ->
  PyStr.last_segment "/" P <> "." ->
  Path_name P = PyStr.last_segment "/" P.
Proof.
  intros Hsep Hdot. unfold Path_name, Path_parts, PyStr.last_segment in *.
  destruct (string_dec (last (PyStr.split "/" P) "") "") as [E|E].
  - destruct (split_from_last_empty _ _ _ E) as [[-> _] | H].
    + reflexivity.
    + rewrite H in Hsep. discriminate.
  - apply last_filter_keep.
    + apply split_from_nonempty.
    + unfold path_component.
      apply andb_true_iff. split; apply negb_true_iff, String.eqb_neq; assumption.
Qed.

(** ** The directory listing *)

Section Listing.

Variable requests_get : string -> result response.
Variable json_loads : string -> result pyval.

Lemma collect_contents_listed (dir_path : string) (files : list pyval) :
  forall contents res,
    collect_contents dir_path files contents = Ok res ->
    Forall (listed_under dir_path) contents ->
    Forall (listed_under dir_path) res.
Proof.
  induction files as [|f files IH]; intros contents res H Hc; simpl in H.
  - injection H as <-. exact Hc.
  - destruct (Py.getitem f "name") as [n|]; [|discriminate]. simpl in H.
    destruct (str_method n) as [name|]; [|discriminate]. simpl in H.
    destruct (PyStr.endswith ".yml" name) eqn:E.
    + apply (IH _ _ H). apply Forall_app. split; [assumption|].
      constructor; [|constructor]. split; [exact E | reflexivity].
    + now apply (IH _ _ H).
Qed.

Lemma collect_contents_names (dir_path : string) (files : list pyval)
    (names : list string) :
  Forall2 has_name files names ->
  forall contents,
    collect_contents dir_path files contents =
    Ok (contents ++ map (listing_item dir_path)
                      (filter (PyStr.endswith ".yml") names))%list.
Proof.
  induction 1 as [|f n files names [d [-> Hd]] _ IH]; intros contents.
  - simpl. now rewrite app_nil_r.
  - cbn [collect_contents Py.getitem]. rewrite Hd. cbn [bind str_method filter].
    destruct (PyStr.endswith ".yml" n).
    + rewrite IH. cbn [map]. now rewrite <- app_assoc.
    + apply IH.
Qed.

Lemma fetch_directory_listed (self : ManifestExplorer) (dir_path : string) :
  Forall (listed_under dir_path)
    (_fetch_directory_contents requests_get json_loads self dir_path).
Proof.
  unfold _fetch_directory_contents, fetch_directory_try.
  destruct (requests_get (api_url self dir_path)) as [r|]; simpl; [|constructor].
  destruct (status_code r =? 200)%Z; [|constructor].
  destruct (json_loads (text r)) as [files|]; simpl; [|constructor].
  destruct (Py.iter files) as [fs|]; simpl; [|constructor].
  destruct (collect_contents dir_path fs []) as [res|] eqn:E; simpl; [|constructor].
  eapply collect_contents_listed; [exact E | constructor].
Qed.

End Listing.

(** C6.  Whatever the directory path, fetching its listing never raises
    and gives the empty list when the request raises (transport error,
    timeout) or answers with a status other than 200; every element it
    gives carries a file name ending in [.yml]; and on a 200 answer that
    lists named entries it gives exactly the entries whose name ends in
    [.yml], in the order of the answer. *)
Theorem fetch_directory_contents_absorbs_failures
    (requests_get : string -> result response)
    (json_loads : string -> result pyval)
    (self : ManifestExplorer) (dir_path : string) :
  let listing := _fetch_directory_contents requests_get json_loads self dir_path in
  (forall e, requests_get (api_url self dir_path) = Raise e -> listing = []) /\
  (forall r, requests_get (api_url self dir_path) = Ok r ->
             status_code r <> 200%Z -> listing = []) /\
  (forall r e, requests_get (api_url self dir_path) = Ok r ->
               json_loads (text r) = Raise e -> listing = []) /\
  (forall it, In it listing ->
              PyStr.endswith ".yml" (c_filename it) = true /\
              c_path it = dir_path ++ c_filename it) /\
  (forall r files names,
      requests_get (api_url self dir_path) = Ok r ->
      status_code r = 200%Z ->
      json_loads (text r) = Ok (PList files) ->
      Forall2 has_name files names ->
      listing = map (listing_item dir_path)
                    (filter (PyStr.endswith ".yml") names)).
Proof.
  intros listing. subst listing.
  unfold _fetch_directory_contents, fetch_directory_try.
  split; [|split; [|split; [|split]]].
  - intros e ->. reflexivity.
  - intros r -> Hs. cbn [bind].
    destruct (Z.eqb_spec (status_code r) 200); [contradiction | reflexivity].
  - intros r e -> Hj. cbn [bind].
    destruct (status_code r =? 200)%Z; [rewrite Hj|]; reflexivity.
  - intros it Hin.
    pose proof (fetch_directory_listed requests_get json_loads self dir_path) as H.
    rewrite Forall_forall in H. destruct (H it Hin) as [Hy Hit].
    split; [exact Hy | now rewrite Hit at 1].
  - intros r files names -> Hs Hj Hn. cbn [bind].
    rewrite Hs, Z.eqb_refl, Hj. cbn [bind Py.iter].
    rewrite (collect_contents_names dir_path _ _ Hn). reflexivity.
Qed.

(** The listing of [devices/] on the example remote. *)
Lemma fetch_directory_contents_absorbs_failures_witness :
  _fetch_directory_contents World.remote_get World.remote_json World.fresh "devices/"
  = [ listing_item "devices/" "mcx.yml"; listing_item "devices/" "lpc.yml" ]
  /\ _fetch_directory_contents World.offline_get World.no_parse World.fresh "devices/"
     = [].
Proof.
  split.
  - refine (proj2 (proj2 (proj2 (proj2
      (fetch_directory_contents_absorbs_failures
         World.remote_get World.remote_json World.fresh "devices/"))))
      {| status_code := 200; text := "devices" |}
      _ ["mcx.yml"; "README.md"; "lpc.yml"] _ _ _ _).
    + reflexivity.
    + reflexivity.
    + reflexivity.
    + repeat constructor; eexists; split; reflexivity.
  - exact (proj1 (fetch_directory_contents_absorbs_failures
             World.offline_get World.no_parse World.fresh "devices/")
             RequestException eq_refl).
Defined.

(** ** The import classifier *)

(** C1, amended.  For a raw path [P] that ends neither in [.yml] nor in
    ['/'], the classifier probes the listing at [P ++ "/"]: the entry is a
    directory exactly when that listing is not empty, and then its
    normalized path is [P ++ "/"] and its contents are the listing;
    otherwise it is a file with path [P] and display name [Path(P).name],
    the last segment of [P] that is not ['.'] -- the last path segment
    itself whenever that segment is not ['.']. *)
Theorem analyze_ambiguous_import_path
    (requests_get : string -> result response)
    (json_loads : string -> result pyval)
    (self : ManifestExplorer) (P : string) :
  PyStr.endswith ".yml" P = false ->
  PyStr.endswith "/" P = false ->
  let listing := _fetch_directory_contents requests_get json_loads self (P ++ "/") in
  let info := _analyze_import_path requests_get json_loads self P in
  (i_type info = directory <-> listing <> []) /\
  (listing <> [] ->
   info = {| i_path := P ++ "/"; i_type := directory;
             i_contents := listing; i_filename := None |}) /\
  (listing = [] ->
   info = {| i_path := P; i_type := file;
             i_contents := []; i_filename := Some (Path_name P) |}) /\
  (PyStr.last_segment "/" P <> "." -> Path_name P = PyStr.last_segment "/" P).
Proof.
  intros Hyml Hsep listing info. subst listing info.
  unfold _analyze_import_path. rewrite Hyml, Hsep.
  destruct (_fetch_directory_contents requests_get json_loads self (P ++ "/"))
    as [|it l] eqn:E.
  - repeat split; intros; try discriminate; try contradiction; try reflexivity.
    now apply Path_name_last_segment.
  - repeat split; intros; try discriminate; try reflexivity.
    now apply Path_name_last_segment.
Qed.

(** [rtos] on a remote without such a directory is a file called [rtos];
    [devices] on the example remote is the directory [devices/]. *)
Lemma analyze_ambiguous_import_path_witness :
  _analyze_import_path World.offline_get World.no_parse World.fresh "rtos"
  = {| i_path := "rtos"; i_type := file; i_contents := [];
       i_filename := Some "rtos" |}
  /\ i_type (_analyze_import_path World.remote_get World.remote_json
               World.fresh "devices") = directory.
Proof.
  split.
  - exact (proj1 (proj2 (proj2
      (analyze_ambiguous_import_path World.offline_get World.no_parse
         World.fresh "rtos" eq_refl eq_refl))) eq_refl).
  - apply (proj1 (analyze_ambiguous_import_path World.remote_get
             World.remote_json World.fresh "devices" eq_refl eq_refl)).
    vm_compute. discriminate.
Defined.

(** C1 as stated fails on a path whose last segment is ['.']: [docs/.]
    ends neither in [.yml] nor in ['/'], its probe finds nothing, and the
    file is called [docs] although the last path segment is ['.']. *)
Lemma analyze_ambiguous_dot_segment :
  PyStr.endswith ".yml" "docs/." = false /\
  PyStr.endswith "/" "docs/." = false /\
  _fetch_directory_contents World.offline_get World.no_parse World.fresh
    ("docs/." ++ "/") = [] /\
  i_type (_analyze_import_path World.offline_get World.no_parse World.fresh "docs/.")
    = file /\
  i_filename (_analyze_import_path World.offline_get World.no_parse World.fresh "docs/.")
    = Some "docs" /\
  PyStr.last_segment "/" "docs/." = "." /\
  i_filename (_analyze_import_path World.offline_get World.no_parse World.fresh "docs/.")
    <> Some (PyStr.last_segment "/" "docs/.").
Proof.
  repeat split; try reflexivity. vm_compute. discriminate.
Qed.

(** ** Ordered dictionaries *)

Lemma mem_key_In (k : string) (ks : list string) :
  mem_key k ks = true <-> In k ks.
Proof.
  unfold mem_key. rewrite existsb_exists. split.
  - intros [x [Hx E]]. apply String.eqb_eq in E. now subst.
  - intros H. exists k. split; [assumption | apply String.eqb_refl].
Qed.

Lemma mem_key_app (k : string) (a b : list string) :
  mem_key k (a ++ b) = mem_key k a || mem_key k b.
Proof. apply existsb_app. Qed.

Lemma keys_set {V} (d : Dict.dict V) (k : string) (v : V) :
  Dict.keys (Dict.set d k v) = push_key (Dict.keys d) k.
Proof.
  unfold push_key, mem_key, Dict.keys. induction d as [|[k' v'] d IH]; simpl.
  - reflexivity.
  - rewrite (String.eqb_sym k k'). destruct (String.eqb k' k); simpl.
    + reflexivity.
    + rewrite IH. now destruct (existsb (String.eqb k) (map fst d)).
Qed.

Lemma get_set_same {V} (d : Dict.dict V) (k : string) (v : V) :
  Dict.get (Dict.set d k v) k = Some v.
Proof.
  induction d as [|[k' v'] d IH]; simpl.
  - now rewrite String.eqb_refl.
  - destruct (String.eqb k' k) eqn:E; simpl; rewrite E; [reflexivity | exact IH].
Qed.

Lemma get_set_other {V} (d : Dict.dict V) (k k' : string) (v : V) :
  k <> k' -> Dict.get (Dict.set d k v) k' = Dict.get d k'.
Proof.
  intros Hne. induction d as [|[k0 v0] d IH]; simpl.
  - apply String.eqb_neq in Hne. now rewrite Hne.
  - destruct (String.eqb k0 k) eqn:E; simpl.
    + apply String.eqb_eq in E. subst k0.
      apply String.eqb_neq in Hne. now rewrite Hne.
    + now rewrite IH.
Qed.

Lemma get_In {V} (d : Dict.dict V) (k : string) (v : V) :
  Dict.get d k = Some v -> In (k, v) d.
Proof.
  induction d as [|[k' v'] d IH]; simpl; [discriminate|].
  destruct (String.eqb k' k) eqn:E.
  - apply String.eqb_eq in E. intros [= ->]. left. now subst.
  - intros H. right. now apply IH.
Qed.

Lemma In_get {V} (d : Dict.dict V) (k : string) (v : V) :
  NoDup (Dict.keys d) -> In (k, v) d -> Dict.get d k = Some v.
Proof.
  induction d as [|[k' v'] d IH]; simpl; [contradiction|].
  intros Hnd [E | Hin].
  - injection E as -> ->. now rewrite String.eqb_refl.
  - inversion Hnd as [|? ? Hk Hd]; subst.
    destruct (String.eqb k' k) eqn:E.
    + apply String.eqb_eq in E. subst k'. exfalso. apply Hk.
      change k with (fst (k, v)). now apply in_map.
    + now apply IH.
Qed.

Lemma set_fresh {V} (d : Dict.dict V) (k : string) (v : V) :
  ~ In k (Dict.keys d) -> Dict.set d k v = (d ++ [(k, v)])%list.
Proof.
  induction d as [|[k' v'] d IH]; simpl; intros Hk; [reflexivity|].
  destruct (String.eqb k' k) eqn:E.
  - apply String.eqb_eq in E. exfalso. apply Hk. now left.
  - rewrite IH; [reflexivity|]. intros H. apply Hk. now right.
Qed.

(** *** First occurrences *)

Lemma filter_twice {A} (f g : A -> bool) (l : list A) :
  filter f (filter g l) = filter (fun x => g x && f x) l.
Proof.
  induction l as [|x l IH]; simpl; [reflexivity|].
  destruct (g x); simpl; [destruct (f x)|]; now rewrite IH.
Qed.

Lemma fold_push_key (l ks : list string) :
  fold_left push_key l ks
  = (ks ++ filter (fun x => negb (mem_key x ks)) (uniq l))%list.
Proof.
  revert ks; induction l as [|x l IH]; intros ks; simpl.
  - now rewrite app_nil_r.
  - rewrite IH. unfold push_key. destruct (mem_key x ks) eqn:E; simpl.
    + f_equal. rewrite filter_twice. apply filter_ext. intros y.
      destruct (String.eqb x y) eqn:Exy; simpl; [|reflexivity].
      apply String.eqb_eq in Exy. subst y. now rewrite E.
    + rewrite <- app_assoc. simpl. do 2 f_equal.
      rewrite filter_twice. apply filter_ext. intros y.
      rewrite mem_key_app. simpl. rewrite orb_false_r, (String.eqb_sym y x).
      rewrite negb_orb. apply andb_comm.
Qed.

Lemma uniq_fold (l : list string) : fold_left push_key l [] = uniq l.
Proof.
  rewrite fold_push_key. simpl.
  induction (uniq l) as [|x u IH]; simpl; [reflexivity | now rewrite IH].
Qed.

Lemma uniq_In (l : list string) (x : string) : In x (uniq l) <-> In x l.
Proof.
  induction l as [|y l IH]; simpl; [reflexivity|].
  rewrite filter_In, IH. split.
  - intros [-> | [H _]]; auto.
  - intros [-> | H]; [now left|].
    destruct (String.eqb y x) eqn:E.
    + apply String.eqb_eq in E. now left.
    + right. now split.
Qed.

Lemma NoDup_filter {A} (f : A -> bool) (l : list A) :
  NoDup l -> NoDup (filter f l).
Proof.
  induction 1 as [|x l Hx Hl IH]; simpl; [constructor|].
  destruct (f x); [constructor|]; auto.
  intros H. apply Hx. now apply filter_In in H.
Qed.

Lemma uniq_NoDup (l : list string) : NoDup (uniq l).
Proof.
  induction l as [|x l IH]; simpl; constructor.
  - intros H. apply filter_In in H. destruct H as [_ H].
    now rewrite String.eqb_refl in H.
  - now apply NoDup_filter.
Qed.

(** A list without repetitions is left as it is. *)
Lemma uniq_id (l : list string) : NoDup l -> uniq l = l.
Proof.
  induction 1 as [|x l Hx Hl IH]; simpl; [reflexivity|].
  rewrite IH. f_equal.
  clear IH Hl. induction l as [|y l IHl]; simpl; [reflexivity|].
  destruct (String.eqb x y) eqn:E.
  - apply String.eqb_eq in E. subst. exfalso. apply Hx. now left.
  - simpl. f_equal. apply IHl. intros H. apply Hx. now right.
Qed.

Lemma string_entries_In (l : list pyval) (s : string) :
  In s (string_entries l) <-> In (PStr s) l.
Proof.
  unfold string_entries. rewrite in_flat_map. split.
  - intros [v [Hv Hs]]. destruct v; simpl in Hs; try contradiction.
    destruct Hs as [-> | []]. exact Hv.
  - intros H. exists (PStr s). split; [exact H | now left].
Qed.

(** ** The structure analyzer *)

Section Analyzer.

Variable requests_get : string -> result response.
Variable yaml_safe_load : string -> result pyval.
Variable json_loads : string -> result pyval.

Lemma analyze_step_keys (self : ManifestExplorer) (l : list pyval) :
  forall d : Dict.dict import_info,
    Dict.keys
      (fold_left
         (fun structure import_path =>
            match import_path with
            | PStr p =>
                Dict.set structure p
                  (_analyze_import_path requests_get json_loads self p)
            | _ => structure
            end) l d)
    = fold_left push_key (string_entries l) (Dict.keys d).
Proof.
  induction l as [|v l IH]; intros d; [reflexivity|].
  cbn [fold_left]. rewrite IH.
  destruct v; try reflexivity.
  cbn [string_entries flat_map app fold_left]. now rewrite keys_set.
Qed.

Lemma analyze_loop_keys (self : ManifestExplorer) (l : list pyval) :
  Dict.keys (analyze_loop requests_get json_loads self l)
  = uniq (string_entries l).
Proof.
  unfold analyze_loop. rewrite (analyze_step_keys self l []). apply uniq_fold.
Qed.

(** With the root document loaded and its import declaration a list, the
    analysis is the loop over that list. *)
Lemma analyze_imports_loaded (self : ManifestExplorer) (l : list pyval) :
  Py.truthy (manifest self) = true ->
  self_imports (manifest self) = Ok (PList l) ->
  fst (analyze_imports requests_get yaml_safe_load json_loads self)
  = Ok (analyze_loop requests_get json_loads self l).
Proof.
  intros Ht Hi. unfold analyze_imports. rewrite Ht. cbn [negb bind].
  rewrite Hi. reflexivity.
Qed.

End Analyzer.

Lemma set_Forall {V} (P : string * V -> Prop) (d : Dict.dict V)
    (k : string) (v : V) :
  Forall P d -> P (k, v) -> Forall P (Dict.set d k v).
Proof.
  intros Hd Hkv. induction Hd as [|[k' v'] d Hx Hd IH]; simpl.
  - now constructor.
  - destruct (String.eqb k' k) eqn:E.
    + apply String.eqb_eq in E. subst k'. now constructor.
    + now constructor.
Qed.

(** Every value of the analyzer's mapping is the classification of its
    key. *)
Lemma analyze_loop_values
    (requests_get : string -> result response)
    (json_loads : string -> result pyval)
    (self : ManifestExplorer) (l : list pyval) :
  Forall (fun kv => snd kv = _analyze_import_path requests_get json_loads self (fst kv))
    (analyze_loop requests_get json_loads self l).
Proof.
  unfold analyze_loop.
  assert (G : forall d : Dict.dict import_info,
    Forall (fun kv => snd kv
                      = _analyze_import_path requests_get json_loads self (fst kv)) d ->
    Forall (fun kv => snd kv
                      = _analyze_import_path requests_get json_loads self (fst kv))
      (fold_left
         (fun structure import_path =>
            match import_path with
            | PStr p =>
                Dict.set structure p
                  (_analyze_import_path requests_get json_loads self p)
            | _ => structure
            end) l d)).
  { induction l as [|v l IH]; intros d Hd; [exact Hd|].
    cbn [fold_left]. apply IH. destruct v; try exact Hd.
    now apply set_Forall. }
  apply G. constructor.
Qed.

(** C9.  On a loaded root document whose import declaration is a list,
    the analysis does not fail whatever the list holds: the entries that
    are not strings are left out, and the keys of the mapping are exactly
    the string entries of the list (each once, at its first occurrence). *)
Theorem analyze_imports_skips_non_strings
    (requests_get : string -> result response)
    (yaml_safe_load json_loads : string -> result pyval)
    (self : ManifestExplorer) (l : list pyval) :
  Py.truthy (manifest self) = true ->
  self_imports (manifest self) = Ok (PList l) ->
  exists structure,
    fst (analyze_imports requests_get yaml_safe_load json_loads self) = Ok structure /\
    Dict.keys structure = uniq (string_entries l) /\
    (forall s, In s (Dict.keys structure) <-> In (PStr s) l) /\
    (forall s info, In (s, info) structure ->
                    info = _analyze_import_path requests_get json_loads self s).
Proof.
  intros Ht Hi. exists (analyze_loop requests_get json_loads self l).
  split; [now apply analyze_imports_loaded|].
  split; [apply analyze_loop_keys|]. split.
  - intros s. rewrite analyze_loop_keys, uniq_In. apply string_entries_In.
  - intros s info Hin.
    pose proof (analyze_loop_values requests_get json_loads self l) as H.
    rewrite Forall_forall in H. exact (H _ Hin).
Qed.

(** A root document that declares a number, a mapping and [None] between
    two file names. *)
Lemma analyze_imports_skips_non_strings_witness :
  exists structure,
    fst (analyze_imports World.offline_get World.no_parse World.no_parse
           {| manifest_url := default_manifest_url; base_url := "";
              manifest :=
                PDict [("manifest",
                        PDict [("self",
                                PDict [("import",
                                        PList [PStr "base.yml"; PInt 7;
                                               PDict [("file", PStr "x.yml")];
                                               PNone; PStr "rtos.yml"])])])];
              import_structure := [] |}) = Ok structure /\
    Dict.keys structure = ["base.yml"; "rtos.yml"].
Proof.
  destruct (analyze_imports_skips_non_strings
              World.offline_get World.no_parse World.no_parse
              {| manifest_url := default_manifest_url; base_url := "";
                 manifest :=
                   PDict [("manifest",
                           PDict [("self",
                                   PDict [("import",
                                           PList [PStr "base.yml"; PInt 7;
                                                  PDict [("file", PStr "x.yml")];
                                                  PNone; PStr "rtos.yml"])])])];
                 import_structure := [] |}
              [PStr "base.yml"; PInt 7; PDict [("file", PStr "x.yml")];
               PNone; PStr "rtos.yml"]
              eq_refl eq_refl) as [structure [H1 [H2 _]]].
  exists structure. split; [exact H1 | exact H2].
Defined.

(** ** The category grouper *)

Lemma category_eqb_eq (a b : category) : category_eqb a b = true <-> a = b.
Proof. destruct a, b; simpl; split; intros H; try reflexivity; discriminate. Qed.

Lemma categories_append_grouped (items : category_items)
    (item : string * import_info) :
  categories_append (grouped items) (category_name (categorize (fst item))) item
  = grouped (items ++ [item])%list.
Proof.
  unfold grouped, all_categories. cbn [map]. rewrite !filter_app.
  cbn [filter]. unfold in_category.
  destruct (categorize (fst item)); cbn [category_eqb];
    rewrite ?app_nil_r; reflexivity.
Qed.

Lemma categorize_imports_grouped (import_structure : Dict.dict import_info) :
  categorize_imports import_structure
  = grouped (categorized_items import_structure).
Proof.
  unfold categorize_imports.
  change categories_init with (grouped []).
  change (categorized_items import_structure)
    with ([] ++ categorized_items import_structure)%list.
  generalize (@nil (string * import_info)).
  induction import_structure as [|e st IH]; intros items.
  - cbn [fold_left categorized_items map]. now rewrite app_nil_r.
  - cbn [fold_left].
    pose proof (categories_append_grouped items (i_path (snd e), snd e)) as H.
    cbn [fst] in H. rewrite H, IH. unfold categorized_items. cbn [map].
    now rewrite <- app_assoc.
Qed.

Lemma grouped_get (items : category_items) (c : category) :
  Dict.get (grouped items) (category_name c) = Some (filter (in_category c) items).
Proof. destruct c; reflexivity. Qed.

(** C7.  The grouper files every entry of the analyzer's mapping under
    exactly one of the five categories, the one [categorize] gives to its
    normalized path; and [categorize] is the first-match rule on plain,
    case-sensitive substrings: [base.yml] or [internal.yml], else
    [devices], else [middleware], else [rtos], else Other. *)
Theorem category_assignment_first_match
    (import_structure : Dict.dict import_info) :
  let categories := categorize_imports import_structure in
  categories = grouped (categorized_items import_structure) /\
  (forall c item,
      In item (match Dict.get categories (category_name c) with
               | Some items => items
               | None => []
               end)
      <-> In item (categorized_items import_structure) /\ categorize (fst item) = c) /\
  (forall p,
      let base := is_substring "base.yml" p \/ is_substring "internal.yml" p in
      (categorize p = Base_Files <-> base) /\
      (categorize p = Devices <-> ~ base /\ is_substring "devices" p) /\
      (categorize p = Middleware <->
         ~ base /\ ~ is_substring "devices" p /\ is_substring "middleware" p) /\
      (categorize p = RTOS <->
         ~ base /\ ~ is_substring "devices" p /\ ~ is_substring "middleware" p /\
         is_substring "rtos" p) /\
      (categorize p = Other <->
         ~ base /\ ~ is_substring "devices" p /\ ~ is_substring "middleware" p /\
         ~ is_substring "rtos" p)) /\
  categorize "Devices/RTOS/Base.yml" = Other.
Proof.
  intros categories. subst categories.
  rewrite categorize_imports_grouped.
  split; [reflexivity|]. split; [|split; [|reflexivity]].
  - intros c item. rewrite grouped_get, filter_In.
    unfold in_category. now rewrite category_eqb_eq.
  - intros p base. subst base. unfold is_substring.
    rewrite <- !contains_iff. unfold categorize.
    destruct (PyStr.contains "base.yml" p), (PyStr.contains "internal.yml" p),
      (PyStr.contains "devices" p), (PyStr.contains "middleware" p),
      (PyStr.contains "rtos" p); cbn [orb];
      repeat split; intros; intuition congruence.
Qed.

(** ** What the classifier returns *)

Section Classified.

Variable requests_get : string -> result response.
Variable json_loads : string -> result pyval.
Variable self : ManifestExplorer.

Lemma analyze_presentable (p : string) :
  presentable (_analyze_import_path requests_get json_loads self p) = true.
Proof.
  unfold _analyze_import_path.
  destruct (PyStr.endswith ".yml" p); [reflexivity|].
  destruct (PyStr.endswith "/" p); [reflexivity|].
  now destruct (_fetch_directory_contents requests_get json_loads self (p ++ "/")).
Qed.

Lemma endswith_slash_append (p : string) : PyStr.endswith "/" (p ++ "/") = true.
Proof. apply endswith_iff. now exists p. Qed.

Lemma yml_not_slash (a : string) : forall b, a ++ ".yml" <> b ++ "/".
Proof.
  induction a as [|x a IH]; intros b E; simpl in E.
  - do 5 (destruct b as [|? b]; simpl in E; try discriminate).
  - destruct b as [|y b]; simpl in E; injection E as _ E.
    + destruct a; discriminate.
    + exact (IH _ E).
Qed.

Lemma endswith_yml_not_slash (p : string) :
  PyStr.endswith ".yml" p = true -> PyStr.endswith "/" p = false.
Proof.
  intros H. apply endswith_iff in H. destruct H as [a ->].
  destruct (PyStr.endswith "/" (a ++ ".yml")) eqn:E; [|reflexivity].
  apply endswith_iff in E. destruct E as [b E]. now apply yml_not_slash in E.
Qed.

(** A file entry never carries a path ending in ['/'], a directory entry
    always does. *)
Lemma analyze_path_shape (p : string) :
  let info := _analyze_import_path requests_get json_loads self p in
  PyStr.endswith "/" (i_path info)
  = match i_type info with directory => true | _ => false end.
Proof.
  unfold _analyze_import_path.
  destruct (PyStr.endswith ".yml" p) eqn:Ey.
  - cbn. now apply endswith_yml_not_slash.
  - destruct (PyStr.endswith "/" p) eqn:Es; [exact Es|].
    destruct (_fetch_directory_contents requests_get json_loads self (p ++ "/")).
    + exact Es.
    + cbn. apply endswith_slash_append.
Qed.

(** The contents of an entry were listed under its normalized path. *)
Lemma analyze_contents_listed (p : string) :
  let info := _analyze_import_path requests_get json_loads self p in
  Forall (listed_under (i_path info)) (i_contents info).
Proof.
  unfold _analyze_import_path.
  destruct (PyStr.endswith ".yml" p); [constructor|].
  destruct (PyStr.endswith "/" p).
  - apply fetch_directory_listed.
  - destruct (_fetch_directory_contents requests_get json_loads self (p ++ "/"))
      eqn:E; [constructor|].
    cbn [i_path i_contents]. rewrite <- E. apply fetch_directory_listed.
Qed.

End Classified.

(** ** Laying out the import panel *)

Lemma push_key_Forall (Q : string -> Prop) (ks : list string) (k : string) :
  Forall Q ks -> Q k -> Forall Q (push_key ks k).
Proof.
  intros Hks Hk. unfold push_key. destruct (mem_key k ks); [assumption|].
  apply Forall_app. split; [assumption | now constructor].
Qed.

Lemma insert_by_name_Forall (Q : content_item -> Prop) (x : content_item)
    (l : list content_item) :
  Q x -> Forall Q l -> Forall Q (insert_by_name x l).
Proof.
  intros Hx Hl. induction Hl as [|y l Hy Hl IH]; simpl.
  - now constructor.
  - destruct (String.leb (c_name x) (c_name y)); repeat constructor; assumption.
Qed.

Lemma sorted_by_name_Forall (Q : content_item -> Prop) (l : list content_item) :
  Forall Q l -> Forall Q (sorted_by_name l).
Proof.
  induction 1 as [|x l Hx Hl IH]; simpl; [constructor|].
  now apply insert_by_name_Forall.
Qed.

Lemma file_vars_keys (Q : string -> Prop) (items : list content_item) :
  Forall (fun it => Q (c_path it)) items ->
  forall file_vars : Dict.dict bool,
    Forall Q (Dict.keys file_vars) ->
    Forall Q (Dict.keys
                (fold_left (fun fv item => Dict.set fv (c_path item) false)
                   items file_vars)).
Proof.
  induction 1 as [|it items Hit Hitems IH]; intros fv Hfv; [exact Hfv|].
  cbn [fold_left]. apply IH. rewrite keys_set. now apply push_key_Forall.
Qed.

Lemma listed_under_below (d : string) (it : content_item) :
  listed_under d it -> below d (c_path it).
Proof.
  intros [Hy Hit]. exists (c_filename it). split.
  - now apply (endswith_nonempty ".yml").
  - now rewrite Hit at 1.
Qed.

Lemma selections_shape_set (ds : Dict.dict (Dict.dict bool)) (d : string)
    (fv : Dict.dict bool) :
  selections_shape (Dict.set ds d fv)
  = Dict.set (selections_shape ds) d (Dict.keys fv).
Proof.
  unfold selections_shape. induction ds as [|[k v] ds IH]; simpl.
  - reflexivity.
  - destruct (String.eqb k d); simpl; [reflexivity | now rewrite IH].
Qed.

(** One entry of a category: a variable is stored under the normalized
    path, and the check boxes stay below their directory. *)
Lemma create_item_spec (self : GUI) (item : string * import_info) :
  well_classified (snd item) ->
  children_under (directory_selections self) ->
  exists self',
    create_item self item = Ok self' /\
    Dict.keys (import_vars self')
    = push_key (Dict.keys (import_vars self)) (i_path (snd item)) /\
    children_under (directory_selections self').
Proof.
  intros [Hp Hl] Hc. unfold create_item, presentable in *.
  destruct (i_type (snd item)).
  - discriminate.
  - destruct (i_filename (snd item)); [|discriminate].
    eexists. split; [reflexivity|]. cbn [import_vars directory_selections with_vars].
    split; [apply keys_set | exact Hc].
  - destruct (i_contents (snd item)) as [|it l] eqn:E.
    + eexists. split; [reflexivity|].
      cbn [import_vars directory_selections with_vars].
      split; [apply keys_set | exact Hc].
    + eexists. split; [reflexivity|]. unfold create_directory_options.
      cbn [import_vars directory_selections with_vars].
      split; [apply keys_set|].
      unfold children_under. rewrite selections_shape_set.
      apply set_Forall; [exact Hc|]. cbn [fst snd].
      apply file_vars_keys; [|constructor].
      apply sorted_by_name_Forall.
      eapply Forall_impl; [|exact Hl]. apply listed_under_below.
Qed.

Lemma create_category_section_spec (items : category_items) :
  Forall (fun item => well_classified (snd item)) items ->
  forall self,
    children_under (directory_selections self) ->
    exists self',
      create_category_section self items = Ok self' /\
      Dict.keys (import_vars self')
      = fold_left push_key (map (fun item => i_path (snd item)) items)
          (Dict.keys (import_vars self)) /\
      children_under (directory_selections self').
Proof.
  induction 1 as [|item items Hit Hitems IH]; intros self Hc.
  - exists self. repeat split; assumption.
  - destruct (create_item_spec self item Hit Hc) as [s1 [E1 [K1 C1]]].
    destruct (IH s1 C1) as [s2 [E2 [K2 C2]]].
    exists s2. cbn [create_category_section]. rewrite E1. cbn [bind].
    split; [exact E2|]. split; [|exact C2].
    cbn [map fold_left]. now rewrite K2, K1.
Qed.

Lemma create_sections_spec (categories : Dict.dict category_items) :
  Forall (fun e => Forall (fun item => well_classified (snd item)) (snd e))
    categories ->
  forall self,
    children_under (directory_selections self) ->
    exists self',
      create_sections self categories = Ok self' /\
      Dict.keys (import_vars self')
      = fold_left push_key
          (flat_map (fun e => map (fun item => i_path (snd item)) (snd e)) categories)
          (Dict.keys (import_vars self)) /\
      children_under (directory_selections self').
Proof.
  induction 1 as [|[name items] categories Hit Hcats IH]; intros self Hc.
  - exists self. repeat split; assumption.
  - cbn [snd] in Hit.
    destruct (create_category_section_spec _ Hit self Hc) as [s1 [E1 [K1 C1]]].
    destruct (IH s1 C1) as [s2 [E2 [K2 C2]]].
    exists s2. cbn [flat_map snd]. rewrite fold_left_app, <- K1, <- K2.
    split; [|split; [reflexivity | exact C2]].
    destruct items as [|item items].
    + cbn [create_sections]. cbn in E1. injection E1 as <-. exact E2.
    + cbn [create_sections]. rewrite E1. exact E2.
Qed.

Lemma paths_of_category (import_structure : Dict.dict import_info) (c : category) :
  map (fun item : string * import_info => i_path (snd item))
    (filter (in_category c) (categorized_items import_structure))
  = paths_in_category import_structure c.
Proof.
  unfold paths_in_category, categorized_items, Dict.values, in_category.
  induction import_structure as [|e st IH]; [reflexivity|].
  cbn [map filter fst snd].
  destruct (category_eqb (categorize (i_path (snd e))) c);
    cbn [map snd]; now rewrite IH.
Qed.

Lemma grouped_paths (import_structure : Dict.dict import_info) :
  flat_map (fun e : string * category_items =>
              map (fun item : string * import_info => i_path (snd item)) (snd e))
    (grouped (categorized_items import_structure))
  = flat_map (paths_in_category import_structure) all_categories.
Proof.
  unfold grouped. induction all_categories as [|c l IH]; [reflexivity|].
  cbn [map flat_map snd]. now rewrite IH, paths_of_category.
Qed.

Lemma grouped_well_classified (items : category_items) :
  Forall (fun item => well_classified (snd item)) items ->
  Forall (fun e => Forall (fun item => well_classified (snd item)) (snd e))
    (grouped items).
Proof.
  intros H. unfold grouped. apply Forall_map, Forall_forall. intros c _.
  cbn [snd]. rewrite Forall_forall in *. intros item Hin.
  apply filter_In in Hin. now apply H.
Qed.

(** The panel holds one variable per normalized path, category by
    category. *)
Lemma populate_imports_spec (self : GUI) (import_structure : Dict.dict import_info) :
  Forall (fun e => well_classified (snd e)) import_structure ->
  exists self',
    populate_imports self import_structure = Ok self' /\
    Dict.keys (import_vars self') = presentation_order import_structure /\
    children_under (directory_selections self').
Proof.
  intros H. unfold populate_imports. rewrite categorize_imports_grouped.
  assert (Hitems : Forall (fun item : string * import_info => well_classified (snd item))
                     (categorized_items import_structure)).
  { unfold categorized_items. apply Forall_map.
    eapply Forall_impl; [|exact H]. now intros e He. }
  destruct (create_sections_spec _ (grouped_well_classified _ Hitems)
              (with_vars self [] [])) as [s [E [K C]]].
  { constructor. }
  exists s. split; [exact E|]. split; [|exact C].
  rewrite K. cbn [import_vars with_vars Dict.keys map].
  rewrite grouped_paths. apply uniq_fold.
Qed.

Lemma analyze_loop_well_classified
    (requests_get : string -> result response)
    (json_loads : string -> result pyval)
    (self : ManifestExplorer) (l : list pyval) :
  Forall (fun e => well_classified (snd e))
    (analyze_loop requests_get json_loads self l).
Proof.
  eapply Forall_impl; [|apply analyze_loop_values].
  intros e ->. split; [apply analyze_presentable | apply analyze_contents_listed].
Qed.

(** ** The selection model *)

(** ** The selection model *)

Lemma flatten_loop_spec (items : list (string * pyval)) :
  forall acc, flatten_loop items acc = Ok (acc ++ flat_map emitted items)%list.
Proof.
  induction items as [|[path value] items IH]; intros acc.
  - simpl. now rewrite app_nil_r.
  - cbn [flatten_loop flat_map]. unfold emitted at 1. cbn [fst snd].
    destruct value as [| [|] | | | |]; rewrite IH; cbn [app];
      rewrite <- ?app_assoc; reflexivity.
Qed.

Lemma stored_keys (ds : Dict.dict (Dict.dict bool)) (entry : string * tk_var) :
  forall kv, In kv (stored ds entry) -> fst kv = fst entry.
Proof.
  intros kv. unfold stored. destruct (snd entry) as [b|mode].
  - intros [<- | []]. reflexivity.
  - destruct (String.eqb mode "all"); [intros [<- | []]; reflexivity|].
    destruct (String.eqb mode "none"); [intros [<- | []]; reflexivity|].
    destruct (String.eqb mode "selective"); [intros [<- | []]; reflexivity|].
    intros [].
Qed.

Lemma build_imports_step (ds : Dict.dict (Dict.dict bool))
    (imports : Dict.dict pyval) (entry : string * tk_var) :
  ~ In (fst entry) (Dict.keys imports) ->
  match snd entry with
  | BooleanVar b => Dict.set imports (fst entry) (PBool b)
  | StringVar mode =>
      if String.eqb mode "all" then Dict.set imports (fst entry) (PBool true)
      else if String.eqb mode "none" then Dict.set imports (fst entry) (PBool false)
      else if String.eqb mode "selective" then
        let selected :=
          match Dict.get ds (fst entry) with
          | Some file_vars => map (fun fv => PStr (fst fv)) (filter snd file_vars)
          | None => []
          end in
        Dict.set imports (fst entry) (PList selected)
      else imports
  end = (imports ++ stored ds entry)%list.
Proof.
  intros Hk. unfold stored, chosen. destruct (snd entry) as [b|mode].
  - now apply set_fresh.
  - destruct (String.eqb mode "all"); [now apply set_fresh|].
    destruct (String.eqb mode "none"); [now apply set_fresh|].
    destruct (String.eqb mode "selective"); [|now rewrite app_nil_r].
    cbv zeta. rewrite set_fresh by assumption.
    destruct (Dict.get ds (fst entry)); [now rewrite map_map | reflexivity].
Qed.

Lemma build_imports_from (ds : Dict.dict (Dict.dict bool))
    (iv : Dict.dict tk_var) :
  NoDup (Dict.keys iv) ->
  forall imports : Dict.dict pyval,
    (forall k, In k (Dict.keys iv) -> ~ In k (Dict.keys imports)) ->
    fold_left
      (fun imports entry =>
         match snd entry with
         | BooleanVar b => Dict.set imports (fst entry) (PBool b)
         | StringVar mode =>
             if String.eqb mode "all" then Dict.set imports (fst entry) (PBool true)
             else if String.eqb mode "none"
             then Dict.set imports (fst entry) (PBool false)
             else if String.eqb mode "selective" then
               let selected :=
                 match Dict.get ds (fst entry) with
                 | Some file_vars =>
                     map (fun fv => PStr (fst fv)) (filter snd file_vars)
                 | None => []
                 end in
               Dict.set imports (fst entry) (PList selected)
             else imports
         end) iv imports
    = (imports ++ flat_map (stored ds) iv)%list.
Proof.
  induction iv as [|entry iv IH]; intros Hnd imports Hfresh.
  - simpl. now rewrite app_nil_r.
  - cbn [fold_left]. inversion Hnd as [|? ? Hk Hiv]; subst.
    rewrite build_imports_step by (apply Hfresh; now left).
    rewrite IH; [cbn [flat_map]; now rewrite <- app_assoc | exact Hiv |].
    intros k Hin. unfold Dict.keys. rewrite map_app, in_app_iff.
    intros [H | H].
    + apply (Hfresh k); [now right | exact H].
    + apply in_map_iff in H. destruct H as [kv [<- Hkv]].
      apply stored_keys in Hkv. rewrite Hkv in Hin. now apply Hk.
Qed.

Lemma build_imports_spec (iv : Dict.dict tk_var) (ds : Dict.dict (Dict.dict bool)) :
  NoDup (Dict.keys iv) -> build_imports iv ds = flat_map (stored ds) iv.
Proof.
  intros Hnd. unfold build_imports.
  exact (@build_imports_from ds iv Hnd [] (fun k _ H => H)).
Qed.

Lemma emitted_stored (ds : Dict.dict (Dict.dict bool)) (iv : Dict.dict tk_var) :
  flat_map emitted (flat_map (stored ds) iv)
  = map PStr (flat_map (selected_paths ds) iv).
Proof.
  induction iv as [|[path var] iv IH]; [reflexivity|].
  cbn [flat_map]. rewrite flat_map_app, map_app, IH. f_equal.
  unfold stored, selected_paths. cbn [fst snd].
  destruct var as [[|]|mode]; try reflexivity.
  destruct (String.eqb mode "all"); [reflexivity|].
  destruct (String.eqb mode "none"); [reflexivity|].
  destruct (String.eqb mode "selective"); [|reflexivity].
  cbn [flat_map emitted snd]. now rewrite app_nil_r.
Qed.

(** The import list of the configuration built from the panel. *)
Lemma flatten_panel (strip : string -> string) (now : string) (self : GUI) :
  NoDup (Dict.keys (import_vars self)) ->
  flatten (config (build_config_from_ui strip now self))
  = Ok (map PStr (flat_map (selected_paths (directory_selections self))
                    (import_vars self))).
Proof.
  intros Hnd. unfold flatten, build_config_from_ui.
  cbn [config with_config imports py_items bind].
  rewrite flatten_loop_spec, build_imports_spec by assumption.
  cbn [app]. now rewrite emitted_stored.
Qed.

Lemma chosen_below (ds : Dict.dict (Dict.dict bool)) (p c : string) :
  children_under ds -> In c (chosen ds p) -> below p c.
Proof.
  intros Hc Hin. unfold chosen in Hin.
  destruct (Dict.get ds p) as [fv|] eqn:E; [|contradiction].
  apply get_In in E. unfold children_under in Hc. rewrite Forall_forall in Hc.
  assert (Hsh : In (p, Dict.keys fv) (selections_shape ds)).
  { unfold selections_shape. apply in_map_iff. now exists (p, fv). }
  specialize (Hc _ Hsh). cbn [fst snd] in Hc. rewrite Forall_forall in Hc.
  apply Hc. apply in_map_iff in Hin. destruct Hin as [kv [<- Hkv]].
  apply filter_In in Hkv. unfold Dict.keys. now apply in_map.
Qed.

Lemma all_excluded_nothing (ds : Dict.dict (Dict.dict bool)) (iv : Dict.dict tk_var) :
  (forall e, In e iv -> snd e = BooleanVar false \/ snd e = StringVar "none") ->
  flat_map (selected_paths ds) iv = [].
Proof.
  induction iv as [|e iv IH]; intros H; [reflexivity|].
  cbn [flat_map]. rewrite IH by (intros e' He'; apply H; now right).
  rewrite app_nil_r. unfold selected_paths.
  destruct (H e (or_introl eq_refl)) as [-> | ->]; reflexivity.
Qed.

(** C4.  The import list built from the panel is the concatenation, in
    the order of the selections, of what each selection emits: the path
    of a file selection that is true, the directory's own path for a
    directory in mode ALL, nothing in mode NONE, and in mode SELECTIVE
    exactly the chosen children, none of which is the directory's own
    path.  A panel whose selections are all false or NONE gives the empty
    list. *)
Theorem flatten_selection_map (strip : string -> string) (now : string) (self : GUI) :
  NoDup (Dict.keys (import_vars self)) ->
  children_under (directory_selections self) ->
  let ds := directory_selections self in
  let import_list := flatten (config (build_config_from_ui strip now self)) in
  import_list = Ok (map PStr (flat_map (selected_paths ds) (import_vars self))) /\
  (forall p,
      selected_paths ds (p, BooleanVar true) = [p] /\
      selected_paths ds (p, BooleanVar false) = [] /\
      selected_paths ds (p, StringVar "all") = [p] /\
      selected_paths ds (p, StringVar "none") = [] /\
      selected_paths ds (p, StringVar "selective") = chosen ds p /\
      ~ In p (chosen ds p) /\
      (forall c, In c (chosen ds p) ->
                 exists file_vars, Dict.get ds p = Some file_vars /\
                                   In (c, true) file_vars)) /\
  ((forall e, In e (import_vars self) ->
              snd e = BooleanVar false \/ snd e = StringVar "none") ->
   import_list = Ok []).
Proof.
  intros Hnd Hc ds import_list. subst ds import_list.
  rewrite flatten_panel by assumption.
  split; [reflexivity|]. split.
  - intros p. repeat split; try reflexivity.
    + intros Hin. destruct (chosen_below _ _ _ Hc Hin) as [n [Hn E]].
      symmetry in E. now apply append_nonempty_neq in E.
    + intros c Hin. unfold chosen in Hin.
      destruct (Dict.get (directory_selections self) p) as [fv|]; [|contradiction].
      exists fv. split; [reflexivity|].
      apply in_map_iff in Hin. destruct Hin as [[c' b] [<- Hkv]].
      apply filter_In in Hkv. destruct Hkv as [Hkv Hb]. cbn in Hb. now subst b.
  - intros H. now rewrite all_excluded_nothing.
Qed.

(** The edited example panel gives [base.yml], [devices/mcx.yml],
    [middleware/foo.yml], in that order. *)
Lemma flatten_selection_map_witness :
  flatten (config (build_config_from_ui Panel.no_strip "" Panel.edited))
  = Ok [PStr "base.yml"; PStr "devices/mcx.yml"; PStr "middleware/foo.yml"].
Proof.
  refine (proj1 (flatten_selection_map Panel.no_strip "" Panel.edited _ _)).
  - repeat constructor; cbn; intuition discriminate.
  - repeat constructor; eexists; (split; [|reflexivity]); discriminate.
Defined.

(** ** Order of the import list *)

Lemma widgets_keys (a b : GUI) :
  widgets a = widgets b -> Dict.keys (import_vars a) = Dict.keys (import_vars b).
Proof.
  unfold widgets. intros [= H _].
  apply (f_equal (map fst)) in H. rewrite !map_map in H. exact H.
Qed.

(** C5, amended.  The analyzer's mapping iterates in declaration order
    (each string entry once, at its first occurrence).  The panel, and
    with it the selection map and [flatten], iterate in presentation
    order instead: category by category in the fixed order Base Files,
    Devices, Middleware, RTOS, Other, and in analyzer order inside a
    category.  Declaration order reaches the import list within a
    category only. *)
Theorem declaration_order_within_categories
    (requests_get : string -> result response)
    (yaml_safe_load json_loads : string -> result pyval)
    (self : ManifestExplorer) (l : list pyval) (gui : GUI) :
  Py.truthy (manifest self) = true ->
  self_imports (manifest self) = Ok (PList l) ->
  exists structure panel,
    fst (analyze_imports requests_get yaml_safe_load json_loads self) = Ok structure /\
    Dict.keys structure = uniq (string_entries l) /\
    populate_imports gui structure = Ok panel /\
    Dict.keys (import_vars panel)
    = uniq (flat_map
              (fun c => filter (fun p => category_eqb (categorize p) c)
                          (map i_path (Dict.values structure)))
              all_categories) /\
    (forall edited strip now,
        widgets edited = widgets panel ->
        Dict.keys (import_vars edited) = Dict.keys (import_vars panel) /\
        flatten (config (build_config_from_ui strip now edited))
        = Ok (map PStr
                (flat_map (selected_paths (directory_selections edited))
                   (import_vars edited)))).
Proof.
  intros Ht Hi.
  pose (structure := analyze_loop requests_get json_loads self l).
  destruct (populate_imports_spec gui structure
              (analyze_loop_well_classified requests_get json_loads self l))
    as [panel [E [K _]]].
  exists structure, panel.
  split; [now apply analyze_imports_loaded|].
  split; [apply analyze_loop_keys|].
  split; [exact E|]. split; [exact K|].
  intros edited strip now Hw. pose proof (widgets_keys _ _ Hw) as Hk.
  split; [exact Hk|]. apply flatten_panel.
  rewrite Hk, K. apply uniq_NoDup.
Qed.

(** The example root document: its three entries fall into Base Files,
    Devices and Middleware, so the panel follows the declaration. *)
Lemma declaration_order_within_categories_witness :
  exists structure panel,
    fst (analyze_imports World.remote_get World.remote_yaml World.remote_json
           {| manifest_url := default_manifest_url; base_url := "";
              manifest := World.west_document; import_structure := [] |})
    = Ok structure /\
    populate_imports (GUI_init "") structure = Ok panel /\
    Dict.keys (import_vars panel) = ["base.yml"; "devices/"; "middleware/foo.yml"].
Proof.
  destruct (declaration_order_within_categories
              World.remote_get World.remote_yaml World.remote_json
              {| manifest_url := default_manifest_url; base_url := "";
                 manifest := World.west_document; import_structure := [] |}
              [PStr "base.yml"; PStr "devices/"; PStr "middleware/foo.yml"]
              (GUI_init "") eq_refl eq_refl)
    as [structure [panel [H1 [H2 [H3 [H4 _]]]]]].
  exists structure, panel. split; [exact H1|]. split; [exact H3|].
  rewrite H4.
  assert (Hs : structure
               = analyze_loop World.remote_get World.remote_json
                   {| manifest_url := default_manifest_url; base_url := "";
                      manifest := World.west_document; import_structure := [] |}
                   [PStr "base.yml"; PStr "devices/"; PStr "middleware/foo.yml"]).
  { cbn in H1. now injection H1 as <-. }
  rewrite Hs. reflexivity.
Defined.

(** C5 as stated fails: a root document declares [rtos.yml] before
    [base.yml], both are included by default, and the import list has
    [base.yml] first. *)
Lemma declaration_order_not_preserved :
  let structure :=
    analyze_loop World.offline_get World.no_parse World.fresh Panel.rtos_first in
  Dict.keys structure = ["rtos.yml"; "base.yml"] /\
  (panel <- populate_imports (GUI_init "") structure ;;
   flatten (config (build_config_from_ui Panel.no_strip "" panel)))
  = Ok [PStr "base.yml"; PStr "rtos.yml"].
Proof. split; reflexivity. Qed.

(** ** Default selections *)

(** On a path that does not end in ['/'] the guess is the test for
    [base.yml], [internal.yml] and [rtos]. *)
Lemma guess_default_file (path : string) :
  PyStr.endswith "/" path = false ->
  _guess_default path
  = PyStr.contains "base.yml" path || PyStr.contains "internal.yml" path
    || PyStr.contains "rtos" path.
Proof.
  intros Hs. unfold _guess_default. rewrite Hs, andb_false_r.
  destruct (PyStr.contains "base.yml" path || PyStr.contains "internal.yml" path);
    [reflexivity|].
  destruct (PyStr.contains "rtos" path); [reflexivity|].
  now destruct (PyStr.contains "devices/" path && PyStr.endswith ".yml" path).
Qed.

(** C3, amended.  The variable created for a classified entry at its
    first presentation: a file entry is included exactly when its
    normalized path contains [base.yml], [internal.yml] or [rtos], so a
    file under [devices/] or anywhere else is excluded unless it matches
    one of these; a directory entry under [middleware/] whose listing is
    not empty starts in mode ALL; a directory entry whose listing is empty
    gets a plain boolean that starts excluded. *)
Theorem default_selection_guess
    (requests_get : string -> result response)
    (json_loads : string -> result pyval)
    (self : ManifestExplorer) (raw : string) (gui : GUI) :
  let info := _analyze_import_path requests_get json_loads self raw in
  let path := i_path info in
  exists panel var,
    create_item gui (path, info) = Ok panel /\
    Dict.get (import_vars panel) path = Some var /\
    (i_type info = file ->
     var = BooleanVar (PyStr.contains "base.yml" path
                       || PyStr.contains "internal.yml" path
                       || PyStr.contains "rtos" path)) /\
    (i_type info = directory -> i_contents info <> [] ->
     PyStr.contains "middleware/" path = true -> var = StringVar "all") /\
    (i_type info = directory -> i_contents info = [] -> var = BooleanVar false).
Proof.
  intros info path.
  pose proof (analyze_presentable requests_get json_loads self raw) as Hp.
  pose proof (analyze_path_shape requests_get json_loads self raw) as Hs.
  fold info in Hp. cbv zeta in Hs. fold info in Hs. fold path in Hs.
  unfold create_item, presentable in *. cbn [snd]. fold path.
  destruct (i_type info).
  - discriminate.
  - destruct (i_filename info); [|discriminate].
    eexists. eexists. split; [reflexivity|].
    cbn [import_vars with_vars]. split; [apply get_set_same|].
    split; [|split; discriminate].
    intros _. now rewrite guess_default_file.
  - destruct (i_contents info) as [|it l].
    + eexists. eexists. split; [reflexivity|].
      cbn [import_vars with_vars]. split; [apply get_set_same|].
      split; [discriminate|]. split; [intros _ H; now elim H | reflexivity].
    + eexists. eexists. split; [reflexivity|].
      unfold create_directory_options. cbn [import_vars with_vars].
      split; [apply get_set_same|].
      split; [discriminate|]. split; [reflexivity | discriminate].
Qed.

(** [base.yml] starts included, [middleware/foo.yml] excluded. *)
Lemma default_selection_guess_witness :
  exists panel,
    create_item (GUI_init "")
      ("base.yml",
       _analyze_import_path World.offline_get World.no_parse World.fresh "base.yml")
    = Ok panel /\
    Dict.get (import_vars panel) "base.yml" = Some (BooleanVar true).
Proof.
  destruct (default_selection_guess World.offline_get World.no_parse World.fresh
              "base.yml" (GUI_init ""))
    as [panel [var [H1 [H2 [H3 _]]]]].
  exists panel. split; [exact H1|].
  rewrite (H3 eq_refl) in H2. exact H2.
Defined.

(** C3 as stated fails on directories.  [devices/] with a listing is not
    under [middleware/] and starts in mode ALL, not NONE; [middleware/]
    without a listing is under [middleware/] and gets a boolean that
    starts excluded, not mode ALL. *)
Lemma default_selection_directories :
  let devices :=
    _analyze_import_path World.remote_get World.remote_json World.fresh "devices/" in
  let middleware :=
    _analyze_import_path World.offline_get World.no_parse World.fresh "middleware/" in
  (i_type devices = directory /\
   PyStr.contains "middleware/" (i_path devices) = false /\
   (panel <- create_item (GUI_init "") (i_path devices, devices) ;;
    Ok (Dict.get (import_vars panel) (i_path devices)))
   = Ok (Some (StringVar "all"))) /\
  (i_type middleware = directory /\
   PyStr.contains "middleware/" (i_path middleware) = true /\
   (panel <- create_item (GUI_init "") (i_path middleware, middleware) ;;
    Ok (Dict.get (import_vars panel) (i_path middleware)))
   = Ok (Some (BooleanVar false))).
Proof. repeat split; reflexivity. Qed.

(** C10.  A directory entry whose listing is empty is offered as a plain
    boolean that starts excluded: no mode variable and no check boxes are
    created for it; and once that boolean is true the import list holds
    the directory's normalized path. *)
Theorem unresolved_directory_selection
    (gui : GUI) (item : string * import_info)
    (strip : string -> string) (now : string) :
  i_type (snd item) = directory ->
  i_contents (snd item) = [] ->
  let path := i_path (snd item) in
  (exists panel,
      create_item gui item = Ok panel /\
      Dict.get (import_vars panel) path = Some (BooleanVar false) /\
      directory_selections panel = directory_selections gui) /\
  (forall edited,
      NoDup (Dict.keys (import_vars edited)) ->
      In (path, BooleanVar true) (import_vars edited) ->
      exists import_list,
        flatten (config (build_config_from_ui strip now edited)) = Ok import_list /\
        In (PStr path) import_list).
Proof.
  intros Ht Hc path. split.
  - unfold create_item. rewrite Ht, Hc. eexists. split; [reflexivity|].
    cbn [import_vars directory_selections with_vars].
    split; [apply get_set_same | reflexivity].
  - intros edited Hnd Hin. eexists. split; [now apply flatten_panel|].
    apply in_map, in_flat_map. exists (path, BooleanVar true).
    split; [exact Hin | now left].
Qed.

(** [middleware/] on a remote that lists nothing. *)
Lemma unresolved_directory_selection_witness :
  exists panel,
    create_item (GUI_init "")
      ("middleware/",
       _analyze_import_path World.offline_get World.no_parse World.fresh "middleware/")
    = Ok panel /\
    Dict.get (import_vars panel) "middleware/" = Some (BooleanVar false).
Proof.
  destruct (proj1 (unresolved_directory_selection (GUI_init "")
              ("middleware/",
               _analyze_import_path World.offline_get World.no_parse
                 World.fresh "middleware/")
              Panel.no_strip "" eq_refl eq_refl))
    as [panel [H1 [H2 _]]].
  exists panel. split; [exact H1 | exact H2].
Defined.

(** ** Generating without a root document *)

(** C2, amended.  When no root document has been fetched, generation does
    not fail: it returns the document [{'manifest': {}}], with no section
    and no project. *)
Theorem generate_without_manifest (gui : GUI) :
  Py.truthy (manifest (explorer gui)) = false ->
  generate_manifest_dict gui = Ok (PDict [("manifest", PDict [])]).
Proof. intros H. unfold generate_manifest_dict. now rewrite H. Qed.

(** The window as it opens. *)
Lemma generate_without_manifest_witness :
  generate_manifest_dict (GUI_init "") = Ok (PDict [("manifest", PDict [])]).
Proof. exact (generate_without_manifest (GUI_init "") eq_refl). Defined.

(** C2 as stated fails: in the window as it opens no root document has
    been fetched, and generating (alone, or after [build_config_from_ui]
    as [update_preview] does) raises nothing and returns an empty
    document. *)
Lemma generate_without_manifest_no_error :
  manifest (explorer (GUI_init "")) = PNone /\
  generate_manifest_dict (GUI_init "") = Ok (PDict [("manifest", PDict [])]) /\
  generate_manifest_dict (build_config_from_ui Panel.no_strip "" (GUI_init ""))
  = Ok (PDict [("manifest", PDict [])]) /\
  (forall e, generate_manifest_dict (GUI_init "") <> Raise e).
Proof. repeat split; try reflexivity. intros e H. discriminate H. Qed.

(** ** Saved configurations *)

Lemma post_init_created_at (now : string) (c : ManifestConfig) :
  created_at (post_init now c) <> PNone.
Proof.
  unfold post_init. destruct (created_at c) eqn:E; cbn; rewrite ?E; discriminate.
Qed.

Lemma kwargs_of_config_dict (now : string) (c : ManifestConfig) :
  created_at c <> PNone ->
  ManifestConfig_kwargs now (config_dict c) = Ok c.
Proof.
  intros H. destruct c as [i g r d w t v u]. cbn in H |- *.
  unfold post_init. cbn. destruct t; try reflexivity. now elim H.
Qed.

(** C8.  With a JSON codec that gives back the value it was given,
    loading what was saved gives back the configuration, field for field:
    the imports map with its booleans and lists, the group filters, the
    three toggles, the creation time, the revision and the URL.  The
    creation time of a configuration is never [None]: [__post_init__]
    sets it. *)
Theorem saved_configuration_round_trip
    (file : Type) (json_dump : pyval -> file) (json_load : file -> result pyval)
    (now : string) (cfg : ManifestConfig) :
  (forall v, json_load (json_dump v) = Ok v) ->
  created_at cfg <> PNone ->
  deserialize json_load now (serialize json_dump cfg) = Ok cfg.
Proof.
  intros Hcodec Hc. unfold deserialize, serialize. rewrite Hcodec. cbn [bind].
  now apply kwargs_of_config_dict.
Qed.

(** The configuration of the edited example panel, saved and loaded at a
    later time. *)
Lemma saved_configuration_round_trip_witness :
  deserialize (fun v : pyval => Ok v) "2024-06-01T00:00:00"
    (serialize (fun v : pyval => v) saved_example)
  = Ok saved_example.
Proof.
  apply (saved_configuration_round_trip pyval (fun v => v) (fun v => Ok v)
           "2024-06-01T00:00:00" saved_example).
  - intros v. reflexivity.
  - vm_compute. discriminate.
Defined.

(* ================================================================== *)
(** * Further properties of the code *)

(** ** Segments of a path *)

Lemma split_from_free (sep : ascii) (b : string) :
  free_of sep b = true ->
  forall cur, PyStr.split_from sep b cur = [cur ++ b].
Proof.
  induction b as [|c b IH]; intros Hb cur; cbn [PyStr.split_from].
  - now rewrite append_nil_r.
  - cbn [free_of] in Hb. apply andb_true_iff in Hb. destruct Hb as [Hc Hb].
    apply negb_true_iff in Hc. rewrite Hc, (IH Hb), append_assoc. reflexivity.
Qed.

Lemma removelast_cons_nonempty {A} (x : A) (l : list A) :
  l <> [] -> removelast (x :: l) = x :: removelast l.
Proof. destruct l; [contradiction | reflexivity]. Qed.

(** Appending text without separator extends the last segment. *)
Lemma split_from_app_free (sep : ascii) (a b : string) :
  free_of sep b = true ->
  forall cur,
    PyStr.split_from sep (a ++ b) cur
    = (removelast (PyStr.split_from sep a cur)
         ++ [(last (PyStr.split_from sep a cur) "" ++ b)%string])%list.
Proof.
  intros Hb. induction a as [|c a IH]; intros cur.
  - cbn. now apply split_from_free.
  - cbn [append PyStr.split_from]. destruct (Ascii.eqb c sep).
    + rewrite IH, removelast_cons_nonempty, last_cons_nonempty
        by apply split_from_nonempty.
      reflexivity.
    + apply IH.
Qed.

Lemma split_from_segments_free (sep : ascii) (s : string) :
  forall cur, free_of sep cur = true ->
              Forall (fun x => free_of sep x = true) (PyStr.split_from sep s cur).
Proof.
  induction s as [|c s IH]; intros cur Hcur; cbn [PyStr.split_from].
  - now constructor.
  - destruct (Ascii.eqb c sep) eqn:E.
    + constructor; [exact Hcur | now apply IH].
    + apply IH. clear IH. induction cur as [|x cur IHc]; cbn.
      * now rewrite E.
      * cbn in Hcur. apply andb_true_iff in Hcur. destruct Hcur as [Hx Hcur].
        now rewrite Hx, IHc.
Qed.

Lemma last_app_singleton {A} (l : list A) (x d : A) : last (l ++ [x]) d = x.
Proof.
  induction l as [|y l IH]; [reflexivity|].
  cbn [app]. rewrite last_cons_nonempty; [exact IH|]. now destruct l.
Qed.

(** The last segment of [a ++ b] when [b] holds no ['/']. *)
Lemma last_segment_app_free (a b : string) :
  free_of "/" b = true ->
  PyStr.last_segment "/" (a ++ b) = PyStr.last_segment "/" a ++ b.
Proof.
  intros Hb. unfold PyStr.last_segment, PyStr.split.
  now rewrite (split_from_app_free "/" a b Hb), last_app_singleton.
Qed.

Lemma last_segment_free (s : string) :
  free_of "/" (PyStr.last_segment "/" s) = true.
Proof.
  unfold PyStr.last_segment, PyStr.split.
  pose proof (split_from_segments_free "/" s "" eq_refl) as H.
  rewrite Forall_forall in H. apply H, last_In, split_from_nonempty.
Qed.

(** ** The classifier on every path *)

Section ClassifierFacts.

Variable requests_get : string -> result response.
Variable json_loads : string -> result pyval.

Lemma fetch_depends_on_url (a b : ManifestExplorer) (dir_path : string) :
  manifest_url a = manifest_url b ->
  _fetch_directory_contents requests_get json_loads a dir_path
  = _fetch_directory_contents requests_get json_loads b dir_path.
Proof.
  intros H. unfold _fetch_directory_contents, fetch_directory_try, api_url.
  now rewrite H.
Qed.

Lemma analyze_depends_on_url (a b : ManifestExplorer) (p : string) :
  manifest_url a = manifest_url b ->
  _analyze_import_path requests_get json_loads a p
  = _analyze_import_path requests_get json_loads b p.
Proof.
  intros H. unfold _analyze_import_path.
  now rewrite (fetch_depends_on_url a b p H),
              (fetch_depends_on_url a b (p ++ "/") H).
Qed.

Lemma endswith_slash_not_yml (p : string) :
  PyStr.endswith "/" p = true -> PyStr.endswith ".yml" p = false.
Proof.
  intros H. destruct (PyStr.endswith ".yml" p) eqn:E; [|reflexivity].
  apply endswith_yml_not_slash in E. congruence.
Qed.

Lemma analyze_normalized (self : ManifestExplorer) (P : string) :
  _analyze_import_path requests_get json_loads self
    (i_path (_analyze_import_path requests_get json_loads self P))
  = _analyze_import_path requests_get json_loads self P.
Proof.
  unfold _analyze_import_path at 2 3.
  destruct (PyStr.endswith ".yml" P) eqn:Ey.
  { cbn [i_path]. unfold _analyze_import_path. now rewrite Ey. }
  destruct (PyStr.endswith "/" P) eqn:Es.
  { cbn [i_path]. unfold _analyze_import_path. now rewrite Ey, Es. }
  destruct (_fetch_directory_contents requests_get json_loads self (P ++ "/"))
    as [|it l] eqn:E.
  { cbn [i_path]. unfold _analyze_import_path. now rewrite Ey, Es, E. }
  cbn [i_path]. unfold _analyze_import_path.
  rewrite (endswith_slash_not_yml _ (endswith_slash_append P)),
          (endswith_slash_append P), E.
  reflexivity.
Qed.

End ClassifierFacts.

(** X1.  Whatever the raw path and the remote, the classifier returns a
    file or a directory, never the initial "unknown"; the entry is a
    directory exactly when its normalized path ends in ['/']; the
    normalized path is the raw path, with a ['/'] added at most; a file
    keeps the raw path, has no contents and carries a file name; a
    directory carries no file name and its contents are the listing at its
    normalized path. *)
Theorem classification_shape
    (requests_get : string -> result response)
    (json_loads : string -> result pyval)
    (self : ManifestExplorer) (P : string) :
  let info := _analyze_import_path requests_get json_loads self P in
  (i_type info = file \/ i_type info = directory) /\
  (i_type info = directory <-> PyStr.endswith "/" (i_path info) = true) /\
  (i_path info = P \/ i_path info = P ++ "/") /\
  (i_type info = file ->
   i_path info = P /\ i_contents info = [] /\ i_filename info = Some (Path_name P)) /\
  (i_type info = directory ->
   i_filename info = None /\
   i_contents info
   = _fetch_directory_contents requests_get json_loads self (i_path info)).
Proof.
  intros info.
  pose proof (analyze_path_shape requests_get json_loads self P) as Hs.
  cbv zeta in Hs. fold info in Hs. subst info.
  unfold _analyze_import_path in *.
  destruct (PyStr.endswith ".yml" P) eqn:Ey.
  - cbn in *. rewrite Hs. repeat split; auto; discriminate.
  - destruct (PyStr.endswith "/" P) eqn:Es.
    + cbn in *. rewrite Es. repeat split; auto; discriminate.
    + destruct (_fetch_directory_contents requests_get json_loads self (P ++ "/"))
        as [|it l] eqn:E; cbn in *.
      * rewrite Es. repeat split; auto; discriminate.
      * rewrite Hs. repeat split; auto; discriminate.
Qed.

(** X2.  A raw path ending in [.yml] is classified without any request:
    the result is the same on every remote, a file with the raw path, and
    its display name is the last segment of the path, which ends in [.yml]
    and holds no ['/']. *)
Theorem explicit_file_classification
    (requests_get requests_get' : string -> result response)
    (json_loads json_loads' : string -> result pyval)
    (self self' : ManifestExplorer) (P : string) :
  PyStr.endswith ".yml" P = true ->
  let name := PyStr.last_segment "/" P in
  _analyze_import_path requests_get json_loads self P
  = {| i_path := P; i_type := file; i_contents := []; i_filename := Some name |} /\
  _analyze_import_path requests_get' json_loads' self' P
  = _analyze_import_path requests_get json_loads self P /\
  PyStr.endswith ".yml" name = true /\
  free_of "/" name = true.
Proof.
  intros Hy name.
  assert (Hname : PyStr.endswith ".yml" name = true).
  { apply endswith_iff in Hy. destruct Hy as [a ->]. subst name.
    rewrite (last_segment_app_free a ".yml" eq_refl).
    apply endswith_iff. now eexists. }
  assert (HP : Path_name P = name).
  { apply Path_name_last_segment; [now apply endswith_yml_not_slash|].
    fold name. intros E. rewrite E in Hname. discriminate. }
  unfold _analyze_import_path. rewrite Hy, HP.
  repeat split; [exact Hname | apply last_segment_free].
Qed.

(** [middleware/foo.yml] is the file [foo.yml], online or offline. *)
Lemma explicit_file_classification_witness :
  _analyze_import_path World.remote_get World.remote_json World.fresh
    "middleware/foo.yml"
  = {| i_path := "middleware/foo.yml"; i_type := file; i_contents := [];
       i_filename := Some "foo.yml" |}.
Proof.
  exact (proj1 (explicit_file_classification
                  World.remote_get World.offline_get
                  World.remote_json World.no_parse
                  World.fresh World.fresh "middleware/foo.yml" eq_refl)).
Defined.

(** X3.  Classifying the normalized path of an entry gives the entry
    again; so two raw spellings that normalize to the same path (such as
    [devices] and [devices/]) get the same classification. *)
Theorem classification_normal_form
    (requests_get : string -> result response)
    (json_loads : string -> result pyval)
    (self : ManifestExplorer) (P Q : string) :
  let classify := _analyze_import_path requests_get json_loads self in
  classify (i_path (classify P)) = classify P /\
  (i_path (classify P) = i_path (classify Q) -> classify P = classify Q).
Proof.
  intros classify. subst classify. split.
  - apply analyze_normalized.
  - intros H.
    rewrite <- (analyze_normalized requests_get json_loads self P), H.
    apply analyze_normalized.
Qed.

(** ** Listings that are not what the explorer expects *)

Lemma collect_contents_malformed (dir_path : string) (files : list pyval) :
  Exists (fun f => forall n, ~ has_name f n) files ->
  forall contents, exists e, collect_contents dir_path files contents = Raise e.
Proof.
  induction files as [|f files IH]; intros H contents; [inversion H|].
  cbn [collect_contents].
  destruct (Py.getitem f "name") as [v|e] eqn:Eg; [|now exists e].
  cbn [bind]. destruct (str_method v) as [name|e] eqn:Es; [|now exists e].
  cbn [bind].
  assert (Hn : has_name f name).
  { destruct f; try discriminate. cbn in Eg.
    destruct (Dict.get d "name") as [x|] eqn:Ed; [|discriminate].
    injection Eg as ->. destruct v; try discriminate. injection Es as ->.
    now exists d. }
  inversion H as [? ? Hbad | ? ? Htl]; subst.
  - exfalso. exact (Hbad name Hn).
  - destruct (PyStr.endswith ".yml" name); now apply IH.
Qed.

(** X4.  A listing is all or nothing: when the body of the answer is not a
    list, or is a list with one element that is not a mapping with a
    string under ['name'], the whole listing is discarded and the result
    is empty, even if other elements were fine. *)
Theorem malformed_listing_discarded
    (requests_get : string -> result response)
    (json_loads : string -> result pyval)
    (self : ManifestExplorer) (dir_path : string)
    (r : response) (body : pyval) :
  requests_get (api_url self dir_path) = Ok r ->
  json_loads (text r) = Ok body ->
  match body with
  | PList files => Exists (fun f => forall n, ~ has_name f n) files
  | _ => True
  end ->
  _fetch_directory_contents requests_get json_loads self dir_path = [].
Proof.
  intros Hr Hj Hb. unfold _fetch_directory_contents, fetch_directory_try.
  rewrite Hr. cbn [bind]. destruct (status_code r =? 200)%Z; [|reflexivity].
  rewrite Hj. cbn [bind]. destruct body as [| b | z | s | files | d]; try reflexivity.
  - destruct s as [|c s]; reflexivity.
  - cbn [Py.iter bind].
    destruct (collect_contents_malformed dir_path files Hb []) as [e ->].
    reflexivity.
  - destruct d as [|[k v] d]; reflexivity.
Qed.

(** A listing whose second element has no ['name']. *)
Lemma malformed_listing_discarded_witness :
  _fetch_directory_contents
    (fun _ => Ok {| status_code := 200; text := "" |})
    (fun _ => Ok (PList [ PDict [("name", PStr "a.yml")];
                          PDict [("path", PStr "b.yml")] ]))
    World.fresh "devices/" = [].
Proof.
  apply (malformed_listing_discarded
           (fun _ => Ok {| status_code := 200; text := "" |})
           (fun _ => Ok (PList [ PDict [("name", PStr "a.yml")];
                                 PDict [("path", PStr "b.yml")] ]))
           World.fresh "devices/"
           {| status_code := 200; text := "" |}
           (PList [ PDict [("name", PStr "a.yml")];
                    PDict [("path", PStr "b.yml")] ])
           eq_refl eq_refl).
  apply Exists_cons_tl, Exists_cons_hd.
  intros n [d [E H]]. injection E as <-. discriminate H.
Defined.

(** ** The analysis as a whole *)

Section AnalysisFacts.

Variable requests_get : string -> result response.
Variable yaml_safe_load : string -> result pyval.
Variable json_loads : string -> result pyval.

Lemma analyze_loop_depends_on_url (a b : ManifestExplorer) (l : list pyval) :
  manifest_url a = manifest_url b ->
  analyze_loop requests_get json_loads a l
  = analyze_loop requests_get json_loads b l.
Proof.
  intros H. unfold analyze_loop. generalize (@nil (string * import_info)).
  induction l as [|v l IH]; intros acc; [reflexivity|].
  cbn [fold_left]. destruct v; try apply IH.
  rewrite (analyze_depends_on_url requests_get json_loads a b s H). apply IH.
Qed.

Lemma analyze_imports_again (self : ManifestExplorer) :
  analyze_imports requests_get yaml_safe_load json_loads
    (snd (analyze_imports requests_get yaml_safe_load json_loads self))
  = analyze_imports requests_get yaml_safe_load json_loads self.
Proof.
  destruct self as [url base m st0].
  unfold analyze_imports at 2 3. cbn [manifest].
  destruct (Py.truthy m) eqn:Et; cbn [negb].
  - cbn [bind manifest].
    destruct (imports <- self_imports m ;; Py.iter imports) as [imports|e] eqn:Ei.
    + cbn [snd]. unfold analyze_imports. cbn [manifest]. rewrite Et. cbn [negb bind manifest].
      rewrite Ei. cbn [manifest_url base_url manifest].
      set (st := analyze_loop requests_get json_loads
                        {| manifest_url := url; base_url := base; manifest := m;
                           import_structure := st0 |} imports).
           now rewrite (analyze_loop_depends_on_url
                          {| manifest_url := url; base_url := base; manifest := m;
                             import_structure := st |}
                          {| manifest_url := url; base_url := base; manifest := m;
                             import_structure := st0 |} imports eq_refl).
    + cbn [snd]. unfold analyze_imports. cbn [manifest]. rewrite Et. cbn [negb bind manifest].
      now rewrite Ei.
  - unfold fetch_manifest at 1 2. cbn [manifest_url base_url import_structure].
    destruct (r <- requests_get url ;; _ <- raise_for_status r ;; yaml_safe_load (text r))
      as [m'|e] eqn:Ef.
    + cbn [bind manifest].
      destruct (imports <- self_imports m' ;; Py.iter imports) as [imports|e] eqn:Ei.
      * cbn [snd manifest_url base_url manifest]. unfold analyze_imports. cbn [manifest].
        destruct (Py.truthy m') eqn:Et'; cbn [negb].
        -- cbn [bind manifest]. rewrite Ei. cbn [manifest_url base_url manifest].
           set (st := analyze_loop requests_get json_loads
                        {| manifest_url := url; base_url := base; manifest := m';
                           import_structure := st0 |} imports).
           now rewrite (analyze_loop_depends_on_url
                          {| manifest_url := url; base_url := base; manifest := m';
                             import_structure := st |}
                          {| manifest_url := url; base_url := base; manifest := m';
                             import_structure := st0 |} imports eq_refl).
        -- unfold fetch_manifest. cbn [manifest_url base_url import_structure].
           rewrite Ef. cbn [bind manifest]. rewrite Ei.
           cbn [manifest_url base_url manifest].
           set (st := analyze_loop requests_get json_loads
                        {| manifest_url := url; base_url := base; manifest := m';
                           import_structure := st0 |} imports).
           now rewrite (analyze_loop_depends_on_url
                          {| manifest_url := url; base_url := base; manifest := m';
                             import_structure := st |}
                          {| manifest_url := url; base_url := base; manifest := m';
                             import_structure := st0 |} imports eq_refl).
      * cbn [snd]. unfold analyze_imports. cbn [manifest].
        destruct (Py.truthy m') eqn:Et'; cbn [negb].
        -- cbn [bind manifest]. now rewrite Ei.
        -- unfold fetch_manifest. cbn [manifest_url base_url import_structure].
           rewrite Ef. cbn [bind manifest]. now rewrite Ei.
    + cbn [bind snd]. unfold analyze_imports. cbn [manifest]. rewrite Et. cbn [negb].
      unfold fetch_manifest. cbn [manifest_url]. rewrite Ef. reflexivity.
Qed.

End AnalysisFacts.

(** X5.  A loaded root document that lacks the [manifest] section, or its
    [self] section, or the [import] key of that section, is analyzed
    without error: the mapping is empty and replaces the stored one. *)
Theorem analyze_imports_missing_sections
    (requests_get : string -> result response)
    (yaml_safe_load json_loads : string -> result pyval)
    (self : ManifestExplorer) (d : Dict.dict pyval) :
  manifest self = PDict d ->
  d <> [] ->
  (Dict.get d "manifest" = None \/
   exists md, Dict.get d "manifest" = Some (PDict md) /\
     (Dict.get md "self" = None \/
      exists sd, Dict.get md "self" = Some (PDict sd) /\
                 Dict.get sd "import" = None)) ->
  let after := analyze_imports requests_get yaml_safe_load json_loads self in
  fst after = Ok [] /\ import_structure (snd after) = [] /\
  manifest (snd after) = manifest self.
Proof.
  intros Hm Hd Hcase after. subst after.
  assert (Hi : self_imports (manifest self) = Ok (PList [])).
  { rewrite Hm. unfold self_imports. cbn [Py.get bind].
    destruct Hcase as [-> | [md [-> [Hs | [sd [Hs Hi]]]]]]; cbn [Py.get bind].
    - reflexivity.
    - now rewrite Hs.
    - rewrite Hs. cbn [Py.get bind]. now rewrite Hi. }
  assert (Ht : Py.truthy (manifest self) = true).
  { rewrite Hm. destruct d; [contradiction | reflexivity]. }
  unfold analyze_imports. rewrite Ht. cbn [negb bind]. rewrite Hi.
  cbn [bind Py.iter]. repeat split.
Qed.

(** A root document with nothing but remotes. *)
Lemma analyze_imports_missing_sections_witness :
  fst (analyze_imports World.offline_get World.no_parse World.no_parse
         {| manifest_url := default_manifest_url; base_url := "";
            manifest := PDict [("manifest", PDict [("remotes", PList [])])];
            import_structure := [("old.yml",
                                  {| i_path := "old.yml"; i_type := file;
                                     i_contents := []; i_filename := Some "old.yml" |})] |})
  = Ok [].
Proof.
  refine (proj1 (analyze_imports_missing_sections
                   World.offline_get World.no_parse World.no_parse
                   {| manifest_url := default_manifest_url; base_url := "";
                      manifest := PDict [("manifest", PDict [("remotes", PList [])])];
                      import_structure := _ |}
                   [("manifest", PDict [("remotes", PList [])])]
                   eq_refl _ _)).
  - discriminate.
  - right. exists [("remotes", PList [])]. split; [reflexivity | now left].
Defined.

(** X6.  When no root document is loaded, the analysis fetches it first;
    if the request raises, or answers with a 4xx or 5xx status, or the
    body does not parse, the analysis raises that error and the explorer
    is left exactly as it was. *)
Theorem analyze_imports_fetch_failure
    (requests_get : string -> result response)
    (yaml_safe_load json_loads : string -> result pyval)
    (self : ManifestExplorer) :
  Py.truthy (manifest self) = false ->
  let analysis := analyze_imports requests_get yaml_safe_load json_loads self in
  (forall e, requests_get (manifest_url self) = Raise e ->
             analysis = (Raise e, self)) /\
  (forall r, requests_get (manifest_url self) = Ok r ->
             (400 <= status_code r < 600)%Z ->
             analysis = (Raise HTTPError, self)) /\
  (forall r e, requests_get (manifest_url self) = Ok r ->
               ~ (400 <= status_code r < 600)%Z ->
               yaml_safe_load (text r) = Raise e ->
               analysis = (Raise e, self)).
Proof.
  intros Ht analysis. subst analysis.
  unfold analyze_imports, fetch_manifest. rewrite Ht. cbn [negb].
  split; [|split].
  - intros e ->. reflexivity.
  - intros r -> Hs. cbn [bind]. unfold raise_for_status.
    destruct (Z.leb_spec 400 (status_code r)); [|lia].
    destruct (Z.ltb_spec (status_code r) 600); [|lia].
    reflexivity.
  - intros r e -> Hs Hy. cbn [bind]. unfold raise_for_status.
    destruct (Z.leb_spec 400 (status_code r));
      destruct (Z.ltb_spec (status_code r) 600); cbn [andb bind];
      try (exfalso; apply Hs; lia); now rewrite Hy.
Qed.

(** The window as it opens, without network. *)
Lemma analyze_imports_fetch_failure_witness :
  analyze_imports World.offline_get World.no_parse World.no_parse World.fresh
  = (Raise RequestException, World.fresh).
Proof.
  exact (proj1 (analyze_imports_fetch_failure
                  World.offline_get World.no_parse World.no_parse World.fresh
                  eq_refl) RequestException eq_refl).
Defined.

(** X7.  Analyzing again changes nothing: on the explorer an analysis
    leaves behind, a second analysis returns the same result and leaves
    the same explorer; the stored mapping is replaced, never extended. *)
Theorem analyze_imports_idempotent
    (requests_get : string -> result response)
    (yaml_safe_load json_loads : string -> result pyval)
    (self : ManifestExplorer) :
  let analyze := analyze_imports requests_get yaml_safe_load json_loads in
  analyze (snd (analyze self)) = analyze self /\
  (forall structure, fst (analyze self) = Ok structure ->
                     import_structure (snd (analyze self)) = structure).
Proof.
  intros analyze. subst analyze. split; [apply analyze_imports_again|].
  intros structure. unfold analyze_imports.
  destruct (if negb (Py.truthy (manifest self))
            then fetch_manifest requests_get yaml_safe_load self
            else (Ok (manifest self), self)) as [fetched self1].
  destruct (_ <- fetched ;; imports <- self_imports (manifest self1) ;; Py.iter imports);
    cbn [fst snd import_structure]; [now intros [= ->] | discriminate].
Qed.

(** ** The panel as [populate_imports] leaves it *)

Lemma create_item_var (self : GUI) (item : string * import_info) :
  presentable (snd item) = true ->
  exists ds,
    create_item self item
    = Ok (with_vars self
            (Dict.set (import_vars self) (i_path (snd item)) (default_var (snd item)))
            ds) /\
    (ds = directory_selections self \/
     ds = Dict.set (directory_selections self) (i_path (snd item))
            (file_vars_of (i_contents (snd item)))).
Proof.
  intros Hp. unfold create_item, presentable, default_var in *.
  destruct (i_type (snd item)).
  - discriminate.
  - destruct (i_filename (snd item)); [|discriminate].
    eexists. split; [reflexivity | now left].
  - destruct (i_contents (snd item)) as [|it l] eqn:E.
    + eexists. split; [reflexivity | now left].
    + eexists. split; [reflexivity | now right].
Qed.

Lemma create_category_section_inv (I : GUI -> Prop) (items : category_items) :
  (forall g item g', In item items -> I g -> create_item g item = Ok g' -> I g') ->
  forall g g', I g -> create_category_section g items = Ok g' -> I g'.
Proof.
  induction items as [|item items IH]; intros Hstep g g' Hg E; cbn in E.
  - now injection E as <-.
  - destruct (create_item g item) as [g1|] eqn:E1; [|discriminate]. cbn in E.
    apply (IH (fun g0 it g0' Hin => Hstep g0 it g0' (or_intror Hin)) g1 g'); [|exact E].
    now apply (Hstep g item g1 (or_introl eq_refl)).
Qed.

Lemma create_sections_inv (I : GUI -> Prop) (categories : Dict.dict category_items) :
  (forall g item g' e, In e categories -> In item (snd e) -> I g ->
                       create_item g item = Ok g' -> I g') ->
  forall g g', I g -> create_sections g categories = Ok g' -> I g'.
Proof.
  induction categories as [|[name items] categories IH]; intros Hstep g g' Hg E.
  - cbn in E. now injection E as <-.
  - assert (Hrest : forall g0 item g0' e, In e categories -> In item (snd e) -> I g0 ->
                                          create_item g0 item = Ok g0' -> I g0').
    { intros g0 item g0' e He. apply Hstep. now right. }
    destruct items as [|item items]; cbn [create_sections] in E.
    + now apply (IH Hrest g g').
    + destruct (create_category_section g (item :: items)) as [g1|] eqn:E1;
        [|discriminate]. cbn [bind] in E.
      apply (IH Hrest g1 g'); [|exact E].
      apply (create_category_section_inv I (item :: items)) with (g := g);
        [|exact Hg | exact E1].
      intros g0 it g0' Hin. apply (Hstep g0 it g0' (name, item :: items)); [now left | exact Hin].
Qed.

Lemma grouped_items (items : category_items) (e : string * category_items)
    (item : string * import_info) :
  In e (grouped items) -> In item (snd e) -> In item items.
Proof.
  unfold grouped. intros He Hi. apply in_map_iff in He.
  destruct He as [c [<- _]]. cbn [snd] in Hi. now apply filter_In in Hi.
Qed.

Lemma file_vars_unticked (items : list content_item) :
  forall file_vars : Dict.dict bool,
    Forall (fun e => snd e = false) file_vars ->
    Forall (fun e => snd e = false)
      (fold_left (fun fv item => Dict.set fv (c_path item) false) items file_vars).
Proof.
  induction items as [|it items IH]; intros fv Hfv; [exact Hfv|].
  cbn [fold_left]. apply IH. now apply set_Forall.
Qed.

(** After [populate_imports] every variable is the default of an entry of
    the structure and no check box is ticked. *)
Lemma populate_imports_defaults (self panel : GUI)
    (import_structure : Dict.dict import_info) :
  Forall (fun e => presentable (snd e) = true) import_structure ->
  populate_imports self import_structure = Ok panel ->
  Forall (backed (Dict.values import_structure)) (import_vars panel) /\
  Forall (fun e => Forall (fun c => snd c = false) (snd e))
    (directory_selections panel).
Proof.
  intros Hst E. unfold populate_imports in E. rewrite categorize_imports_grouped in E.
  apply (create_sections_inv
           (fun g => Forall (backed (Dict.values import_structure)) (import_vars g) /\
                     Forall (fun e => Forall (fun c => snd c = false) (snd e))
                       (directory_selections g))
           (grouped (categorized_items import_structure)))
    with (g := with_vars self [] []); [| split; constructor | exact E].
  intros g item g' e He Hi [Hv Hb] Ec.
  pose proof (grouped_items _ _ _ He Hi) as Hin.
  unfold categorized_items in Hin. apply in_map_iff in Hin.
  destruct Hin as [entry [<- Hentry]].
  rewrite Forall_forall in Hst. pose proof (Hst _ Hentry) as Hp.
  destruct (create_item_var g (i_path (snd entry), snd entry) Hp) as [ds [Eg Hds]].
  rewrite Eg in Ec. injection Ec as <-. cbn [import_vars directory_selections with_vars snd].
  split.
  - apply set_Forall; [exact Hv|]. exists (snd entry).
    split; [|split; reflexivity]. unfold Dict.values. now apply in_map.
  - destruct Hds as [-> | ->]; [exact Hb|].
    apply set_Forall; [exact Hb|]. cbn [snd]. apply file_vars_unticked. constructor.
Qed.

Lemma selected_default (ds : Dict.dict (Dict.dict bool)) (info : import_info) :
  presentable info = true ->
  selected_paths ds (i_path info, default_var info)
  = if default_included info then [i_path info] else [].
Proof.
  unfold presentable, selected_paths, default_var, default_included. cbn [fst snd].
  destruct (i_type info); [discriminate | |].
  - intros _. now destruct (_guess_default (i_path info)).
  - intros _. now destruct (i_contents info).
Qed.

Section DefaultImportList.

Variable requests_get : string -> result response.
Variable json_loads : string -> result pyval.
Variable self : ManifestExplorer.
Variable l : list pyval.

Lemma analyzed_value (info : import_info) :
  In info (Dict.values (analyze_loop requests_get json_loads self l)) ->
  exists raw, info = _analyze_import_path requests_get json_loads self raw.
Proof.
  intros H. unfold Dict.values in H. apply in_map_iff in H.
  destruct H as [[raw info'] [<- Hin]].
  pose proof (analyze_loop_values requests_get json_loads self l) as Hv.
  rewrite Forall_forall in Hv. exists raw. exact (Hv _ Hin).
Qed.

Lemma analyzed_same_path (a b : import_info) :
  In a (Dict.values (analyze_loop requests_get json_loads self l)) ->
  In b (Dict.values (analyze_loop requests_get json_loads self l)) ->
  i_path a = i_path b -> a = b.
Proof.
  intros Ha Hb E.
  destruct (analyzed_value a Ha) as [ra ->].
  destruct (analyzed_value b Hb) as [rb ->].
  rewrite <- (analyze_normalized requests_get json_loads self ra), E.
  apply analyze_normalized.
Qed.

Lemma included_path_analyzed (info : import_info) :
  In info (Dict.values (analyze_loop requests_get json_loads self l)) ->
  included_path (analyze_loop requests_get json_loads self l) (i_path info)
  = default_included info.
Proof.
  intros Hin. unfold included_path.
  destruct (default_included info) eqn:E.
  - apply existsb_exists. exists info. split; [exact Hin|].
    now rewrite String.eqb_refl, E.
  - destruct (existsb _ _) eqn:Ex; [|reflexivity].
    apply existsb_exists in Ex. destruct Ex as [info' [Hin' H]].
    apply andb_true_iff in H. destruct H as [Hp Hd].
    apply String.eqb_eq in Hp.
    rewrite (analyzed_same_path info' info Hin' Hin Hp) in Hd. congruence.
Qed.

Lemma backed_selected (ds : Dict.dict (Dict.dict bool)) (iv : Dict.dict tk_var) :
  Forall (backed (Dict.values (analyze_loop requests_get json_loads self l))) iv ->
  flat_map (selected_paths ds) iv
  = filter (included_path (analyze_loop requests_get json_loads self l)) (Dict.keys iv).
Proof.
  induction 1 as [|[p v] iv [info [Hin [Hp Hv]]] Hiv IH]; [reflexivity|].
  cbn [fst snd] in Hp, Hv. subst p v.
  cbn [flat_map Dict.keys map filter fst]. fold (Dict.keys iv).
  rewrite IH, (included_path_analyzed info Hin), selected_default.
  - now destruct (default_included info).
  - destruct (analyzed_value info Hin) as [raw ->]. apply analyze_presentable.
Qed.

End DefaultImportList.

(** X8.  Right after a load, with the panel untouched, the import list
    holds normalized paths of declared entries only, in presentation
    order and each once: those of the file entries whose default guess is
    true and those of the directory entries whose listing is not empty.
    No check box is ticked, so no child path can appear. *)
Theorem default_import_list
    (requests_get : string -> result response)
    (json_loads : string -> result pyval)
    (self : ManifestExplorer) (l : list pyval) (gui : GUI)
    (strip : string -> string) (now : string) :
  let structure := analyze_loop requests_get json_loads self l in
  exists panel,
    populate_imports gui structure = Ok panel /\
    flatten (config (build_config_from_ui strip now panel))
    = Ok (map PStr (filter (included_path structure) (presentation_order structure))) /\
    (forall info, In info (Dict.values structure) ->
                  included_path structure (i_path info) = default_included info) /\
    (forall p, chosen (directory_selections panel) p = []).
Proof.
  intros structure.
  pose proof (analyze_loop_well_classified requests_get json_loads self l) as Hwc.
  fold structure in Hwc.
  destruct (populate_imports_spec gui structure Hwc) as [panel [E [K _]]].
  assert (Hp : Forall (fun e => presentable (snd e) = true) structure).
  { eapply Forall_impl; [|exact Hwc]. now intros e [He _]. }
  destruct (populate_imports_defaults gui panel structure Hp E) as [Hv Hb].
  exists panel. split; [exact E|]. split; [|split].
  - rewrite flatten_panel by (rewrite K; apply uniq_NoDup).
    subst structure.
    now rewrite (backed_selected requests_get json_loads self l _ _ Hv), K.
  - intros info. apply included_path_analyzed.
  - intros p. unfold chosen.
    destruct (Dict.get (directory_selections panel) p) as [fv|] eqn:Eg; [|reflexivity].
    apply get_In in Eg. rewrite Forall_forall in Hb. specialize (Hb _ Eg).
    cbn [snd] in Hb. clear Eg. induction Hb as [|[c b] fv Hc Hfv IH]; [reflexivity|].
    cbn in Hc. subst b. exact IH.
Qed.

(** ** The check boxes of a directory *)

Lemma insert_by_name_perm (x : content_item) (l : list content_item) :
  Permutation (x :: l) (insert_by_name x l).
Proof.
  induction l as [|y l IH]; cbn [insert_by_name]; [apply Permutation_refl|].
  destruct (String.leb (c_name x) (c_name y)); [apply Permutation_refl|].
  eapply perm_trans; [apply perm_swap|]. now apply perm_skip.
Qed.

Lemma sorted_by_name_perm (l : list content_item) :
  Permutation l (sorted_by_name l).
Proof.
  induction l as [|x l IH]; cbn [sorted_by_name]; [constructor|].
  eapply perm_trans; [apply perm_skip, IH | apply insert_by_name_perm].
Qed.

Lemma name_le_total (x y : content_item) :
  String.leb (c_name x) (c_name y) = false -> name_le y x.
Proof.
  intros H. unfold name_le.
  destruct (String.leb_total (c_name x) (c_name y)); congruence.
Qed.

Lemma insert_by_name_sorted (x : content_item) (l : list content_item) :
  Sorted name_le l -> Sorted name_le (insert_by_name x l).
Proof.
  induction 1 as [|y l Hl IH Hy]; cbn [insert_by_name].
  - repeat constructor.
  - destruct (String.leb (c_name x) (c_name y)) eqn:E.
    + repeat constructor; assumption.
    + constructor; [exact IH|].
      destruct l as [|z l]; cbn [insert_by_name].
      * constructor. now apply name_le_total.
      * destruct (String.leb (c_name x) (c_name z)).
        -- constructor. now apply name_le_total.
        -- constructor. now inversion Hy.
Qed.

Lemma sorted_by_name_sorted (l : list content_item) :
  Sorted name_le (sorted_by_name l).
Proof.
  induction l as [|x l IH]; cbn [sorted_by_name]; [constructor|].
  now apply insert_by_name_sorted.
Qed.

Lemma file_vars_fold_keys (items : list content_item) :
  forall file_vars : Dict.dict bool,
    Dict.keys (fold_left (fun fv item => Dict.set fv (c_path item) false)
                 items file_vars)
    = fold_left push_key (map c_path items) (Dict.keys file_vars).
Proof.
  induction items as [|it items IH]; intros fv; [reflexivity|].
  cbn [fold_left map]. now rewrite IH, keys_set.
Qed.

Lemma select_all_chosen (file_vars : Dict.dict bool) :
  map fst (filter snd (select_all file_vars)) = Dict.keys file_vars.
Proof.
  unfold select_all, Dict.keys.
  induction file_vars as [|[c b] fv IH]; [reflexivity|].
  cbn. now rewrite IH.
Qed.

Lemma select_none_chosen (file_vars : Dict.dict bool) :
  map fst (filter snd (select_none file_vars)) = [].
Proof.
  unfold select_none. induction file_vars as [|[c b] fv IH]; [reflexivity | exact IH].
Qed.

Lemma unticked_chosen (file_vars : Dict.dict bool) :
  Forall (fun e => snd e = false) file_vars ->
  map fst (filter snd file_vars) = [].
Proof.
  induction 1 as [|[c b] fv Hb Hfv IH]; [reflexivity|].
  cbn in Hb. subst b. exact IH.
Qed.

(** X9.  The options of a directory: its mode starts at "all"; its check
    boxes stand for the listed children, each path once, in the order of
    the listing sorted by display name (a rearrangement of the listing in
    non-decreasing name order); none is ticked, so "selective" chooses
    nothing at first; after "Select All" it chooses every check box, and
    after "Select None" nothing again. *)
Theorem directory_check_boxes
    (gui : GUI) (dir_path : string) (contents : list content_item) :
  let panel := create_directory_options gui dir_path contents in
  let boxes := file_vars_of contents in
  Dict.get (import_vars panel) dir_path = Some (StringVar "all") /\
  Dict.get (directory_selections panel) dir_path = Some boxes /\
  Dict.keys boxes = uniq (map c_path (sorted_by_name contents)) /\
  Permutation contents (sorted_by_name contents) /\
  Sorted name_le (sorted_by_name contents) /\
  chosen (directory_selections panel) dir_path = [] /\
  chosen (Dict.set (directory_selections panel) dir_path (select_all boxes)) dir_path
  = Dict.keys boxes /\
  chosen (Dict.set (directory_selections panel) dir_path
            (select_none (select_all boxes))) dir_path
  = [].
Proof.
  intros panel boxes. subst panel boxes.
  unfold create_directory_options. cbn [import_vars directory_selections with_vars].
  fold (file_vars_of contents).
  split; [apply get_set_same|]. split; [apply get_set_same|].
  split.
  { unfold file_vars_of. rewrite file_vars_fold_keys. apply uniq_fold. }
  split; [apply sorted_by_name_perm|]. split; [apply sorted_by_name_sorted|].
  unfold chosen. rewrite !get_set_same.
  split; [|split].
  - apply unticked_chosen. unfold file_vars_of. apply file_vars_unticked. constructor.
  - apply select_all_chosen.
  - apply select_none_chosen.
Qed.

(** ** The configuration built from the window *)

Lemma build_imports_typed (ds : Dict.dict (Dict.dict bool)) (iv : Dict.dict tk_var) :
  Forall (fun e => import_value_typed (snd e)) (build_imports iv ds).
Proof.
  unfold build_imports.
  assert (G : forall acc : Dict.dict pyval,
             Forall (fun e => import_value_typed (snd e)) acc ->
             Forall (fun e => import_value_typed (snd e))
               (fold_left
                  (fun imports entry =>
                     let path := fst entry in
                     match snd entry with
                     | BooleanVar b => Dict.set imports path (PBool b)
                     | StringVar mode =>
                         if String.eqb mode "all"
                         then Dict.set imports path (PBool true)
                         else if String.eqb mode "none"
                         then Dict.set imports path (PBool false)
                         else if String.eqb mode "selective" then
                           let selected :=
                             match Dict.get ds path with
                             | Some file_vars =>
                                 map (fun fv => PStr (fst fv)) (filter snd file_vars)
                             | None => []
                             end in
                           Dict.set imports path (PList selected)
                         else imports
                     end) iv acc)).
  { induction iv as [|[p v] iv IH]; intros acc Hacc; [exact Hacc|].
    cbn [fold_left]. apply IH. cbv zeta. cbn [fst snd].
    destruct v as [b|mode].
    - apply set_Forall; [exact Hacc|]. left. now exists b.
    - destruct (String.eqb mode "all").
      { apply set_Forall; [exact Hacc|]. left. now exists true. }
      destruct (String.eqb mode "none").
      { apply set_Forall; [exact Hacc|]. left. now exists false. }
      destruct (String.eqb mode "selective"); [|exact Hacc].
      apply set_Forall; [exact Hacc|]. right. cbn [snd].
      destruct (Dict.get ds p) as [fv|].
      + exists (map fst (filter snd fv)). now rewrite map_map.
      + now exists []. }
  apply G. constructor.
Qed.

Lemma stored_radio (ds : Dict.dict (Dict.dict bool)) (iv : Dict.dict tk_var) :
  Forall (fun e => radio_value (snd e)) iv ->
  Dict.keys (flat_map (stored ds) iv) = Dict.keys iv.
Proof.
  unfold Dict.keys. induction 1 as [|[p v] iv Hv Hiv IH]; [reflexivity|].
  cbn [flat_map]. rewrite map_app, IH. cbn [map fst]. f_equal.
  unfold stored. cbn [fst snd] in *. destruct v as [b|mode]; [reflexivity|].
  cbn in Hv. destruct Hv as [-> | [-> | ->]]; reflexivity.
Qed.

Lemma parse_group_filters_nonempty (strip : string -> string) (t : string) :
  Forall (fun f => f <> "") (parse_group_filters strip t).
Proof.
  unfold parse_group_filters. apply Forall_map, Forall_forall.
  intros f Hin. apply filter_In in Hin. destruct Hin as [_ H].
  now apply negb_true_iff, String.eqb_neq in H.
Qed.

(** X10.  The configuration built from the window always matches the
    annotations of the dataclass: [imports] maps paths to booleans or
    lists of strings, the group filters are non-empty strings (blank
    lines are dropped), the toggles are booleans, the creation time and
    the URL are strings and the revision is ["main"].  When every mode
    variable holds one of its three radio values, [imports] has exactly
    the paths of the panel, in the order of the panel. *)
Theorem built_configuration_typed
    (strip : string -> string) (now : string) (gui : GUI) :
  let c := config (build_config_from_ui strip now gui) in
  config_typed c /\
  created_at c = PStr now /\
  nxp_manifest_url c = PStr (manifest_url (explorer gui)) /\
  (NoDup (Dict.keys (import_vars gui)) ->
   Forall (fun e => radio_value (snd e)) (import_vars gui) ->
   exists d, imports c = PDict d /\ Dict.keys d = Dict.keys (import_vars gui)).
Proof.
  intros c. subst c. unfold build_config_from_ui. cbn [config with_config].
  split; [|split; [reflexivity | split; [reflexivity|]]].
  - unfold config_typed.
    cbn [imports group_filters use_nxp_remotes use_nxp_defaults
         use_nxp_west_commands created_at nxp_manifest_revision nxp_manifest_url].
    split; [eexists; split; [reflexivity | apply build_imports_typed]|].
    split.
    { destruct (String.eqb (strip (group_filters_text gui)) "").
      - exists []. split; [reflexivity | constructor].
      - eexists. split; [reflexivity | apply parse_group_filters_nonempty]. }
    repeat split; eexists; reflexivity.
  - intros Hnd Hr. cbn [imports]. eexists. split; [reflexivity|].
    rewrite build_imports_spec by assumption. now apply stored_radio.
Qed.

(** X11.  Every configuration the window can save is restored exactly by
    loading it: saving the configuration built from the widgets and
    loading the file, at any later time, gives that configuration back
    (with a JSON codec that returns the value it was given). *)
Theorem built_configuration_round_trip
    (file : Type) (json_dump : pyval -> file) (json_load : file -> result pyval)
    (strip : string -> string) (now later : string) (gui : GUI) :
  (forall v, json_load (json_dump v) = Ok v) ->
  let c := config (build_config_from_ui strip now gui) in
  deserialize json_load later (serialize json_dump c) = Ok c.
Proof.
  intros Hcodec c. unfold deserialize, serialize. rewrite Hcodec. cbn [bind].
  apply kwargs_of_config_dict. subst c. discriminate.
Qed.

(** The window as it opens, saved and loaded. *)
Lemma built_configuration_round_trip_witness :
  deserialize (fun v : pyval => Ok v) "later"
    (serialize (fun v : pyval => v)
       (config (build_config_from_ui Panel.no_strip "now" (GUI_init "start"))))
  = Ok (config (build_config_from_ui Panel.no_strip "now" (GUI_init "start"))).
Proof.
  exact (built_configuration_round_trip pyval (fun v => v) (fun v => Ok v)
           Panel.no_strip "now" "later" (GUI_init "start") (fun v => eq_refl)).
Defined.

(** ** Loading keyword arguments *)

Lemma set_field_unknown (c : ManifestConfig) (k : string) (v : pyval) :
  ~ In k field_names -> set_field c k v = Raise TypeError.
Proof.
  intros H. unfold set_field.
  repeat match goal with
         | |- context [String.eqb k ?s] =>
             destruct (String.eqb_spec k s) as [->|_];
             [exfalso; apply H; cbn; tauto|]
         end.
  reflexivity.
Qed.

Lemma set_field_known (c : ManifestConfig) (k : string) (v : pyval) :
  In k field_names -> exists c', set_field c k v = Ok c'.
Proof.
  intros H. cbn in H.
  repeat (destruct H as [<- | H]; [eexists; reflexivity|]). contradiction.
Qed.

Lemma set_fields_unknown (kwargs : list (string * pyval)) :
  Exists (fun e => ~ In (fst e) field_names) kwargs ->
  forall c, set_fields c kwargs = Raise TypeError.
Proof.
  induction kwargs as [|[k v] kwargs IH]; intros H c; [inversion H|].
  cbn [set_fields].
  destruct (in_dec string_dec k field_names) as [Hk | Hk].
  - destruct (set_field_known c k v Hk) as [c' ->]. cbn [bind].
    apply IH. inversion H as [? ? Hbad | ? ? Htl]; subst; [|exact Htl].
    now elim Hbad.
  - now rewrite set_field_unknown.
Qed.

(** X12.  Loading rejects what the dataclass does not know: when the
    decoded file is not a mapping, or is a mapping with a key that is not
    one of the eight fields, the constructor raises [TypeError] and no
    configuration is built. *)
Theorem load_rejects_unknown_fields (now : string) (data : pyval) :
  match data with
  | PDict kwargs => Exists (fun e => ~ In (fst e) field_names) kwargs
  | _ => True
  end ->
  ManifestConfig_kwargs now data = Raise TypeError.
Proof.
  intros H. destruct data as [| | | | |kwargs]; try reflexivity.
  cbn [ManifestConfig_kwargs]. now rewrite set_fields_unknown.
Qed.

(** A file saved with one more key. *)
Lemma load_rejects_unknown_fields_witness :
  ManifestConfig_kwargs "now"
    (PDict [("imports", PDict []); ("version", PInt 2)])
  = Raise TypeError.
Proof.
  apply (load_rejects_unknown_fields "now"
           (PDict [("imports", PDict []); ("version", PInt 2)])).
  apply Exists_cons_tl, Exists_cons_hd. cbn. intuition discriminate.
Defined.

Lemma kwarg_absent (kwargs : Dict.dict pyval) (k : string) (dflt : pyval) :
  ~ In k (Dict.keys kwargs) -> kwarg kwargs k dflt = dflt.
Proof.
  intros H. unfold kwarg. destruct (Dict.get kwargs k) as [v|] eqn:E; [|reflexivity].
  exfalso. apply H. apply get_In in E. unfold Dict.keys.
  change k with (fst (k, v)). now apply in_map.
Qed.

Lemma kwarg_cons (kwargs : Dict.dict pyval) (k f : string) (v dflt : pyval) :
  kwarg ((k, v) :: kwargs) f dflt
  = if String.eqb k f then v else kwarg kwargs f dflt.
Proof. unfold kwarg. cbn [Dict.get]. now destruct (String.eqb k f). Qed.

Lemma set_fields_lookup (kwargs : list (string * pyval)) :
  NoDup (Dict.keys kwargs) ->
  Forall (fun e => In (fst e) field_names) kwargs ->
  forall c,
    set_fields c kwargs
    = Ok {| imports := kwarg kwargs "imports" (imports c);
            group_filters := kwarg kwargs "group_filters" (group_filters c);
            use_nxp_remotes := kwarg kwargs "use_nxp_remotes" (use_nxp_remotes c);
            use_nxp_defaults := kwarg kwargs "use_nxp_defaults" (use_nxp_defaults c);
            use_nxp_west_commands :=
              kwarg kwargs "use_nxp_west_commands" (use_nxp_west_commands c);
            created_at := kwarg kwargs "created_at" (created_at c);
            nxp_manifest_revision :=
              kwarg kwargs "nxp_manifest_revision" (nxp_manifest_revision c);
            nxp_manifest_url := kwarg kwargs "nxp_manifest_url" (nxp_manifest_url c) |}.
Proof.
  induction kwargs as [|[k v] kwargs IH]; intros Hnd Hk c.
  - now destruct c.
  - inversion Hnd as [|? ? Hfresh Hnd']; subst.
    inversion Hk as [|? ? Hin Hk']; subst.
    cbn [fst] in Hin. cbn in Hin.
    repeat (destruct Hin as [<- | Hin];
            [cbn [set_fields]; unfold set_field;
             cbn [String.eqb Ascii.eqb Bool.eqb bind]; rewrite (IH Hnd' Hk');
             cbn [imports group_filters use_nxp_remotes use_nxp_defaults
                  use_nxp_west_commands created_at nxp_manifest_revision
                  nxp_manifest_url];
             rewrite (kwarg_absent kwargs _ v Hfresh), !kwarg_cons;
             cbn [String.eqb Ascii.eqb Bool.eqb]; reflexivity|]).
    contradiction.
Qed.

(** X13.  Loading fills what the file leaves out: for a mapping whose
    keys are all fields, the constructor succeeds, every field takes the
    value under its key or else its dataclass default, and a creation
    time that is missing or [None] becomes the time of loading. *)
Theorem load_defaults_missing_fields (now : string) (kwargs : Dict.dict pyval) :
  NoDup (Dict.keys kwargs) ->
  Forall (fun e => In (fst e) field_names) kwargs ->
  ManifestConfig_kwargs now (PDict kwargs)
  = Ok {| imports := kwarg kwargs "imports" (PDict []);
          group_filters := kwarg kwargs "group_filters" (PList []);
          use_nxp_remotes := kwarg kwargs "use_nxp_remotes" (PBool true);
          use_nxp_defaults := kwarg kwargs "use_nxp_defaults" (PBool true);
          use_nxp_west_commands := kwarg kwargs "use_nxp_west_commands" (PBool true);
          created_at :=
            match kwarg kwargs "created_at" PNone with
            | PNone => PStr now
            | t => t
            end;
          nxp_manifest_revision := kwarg kwargs "nxp_manifest_revision" (PStr "main");
          nxp_manifest_url := kwarg kwargs "nxp_manifest_url" PNone |}.
Proof.
  intros Hnd Hk. cbn [ManifestConfig_kwargs].
  rewrite (set_fields_lookup kwargs Hnd Hk). cbn [bind]. unfold post_init.
  cbn [imports group_filters use_nxp_remotes use_nxp_defaults use_nxp_west_commands
       created_at nxp_manifest_revision nxp_manifest_url ManifestConfig_defaults].
  now destruct (kwarg kwargs "created_at" PNone).
Qed.

(** A file that only says which defaults to use and has no creation
    time. *)
Lemma load_defaults_missing_fields_witness :
  ManifestConfig_kwargs "2024-06-01"
    (PDict [("use_nxp_defaults", PBool false); ("created_at", PNone)])
  = Ok {| imports := PDict []; group_filters := PList [];
          use_nxp_remotes := PBool true; use_nxp_defaults := PBool false;
          use_nxp_west_commands := PBool true; created_at := PStr "2024-06-01";
          nxp_manifest_revision := PStr "main"; nxp_manifest_url := PNone |}.
Proof.
  refine (load_defaults_missing_fields "2024-06-01"
            [("use_nxp_defaults", PBool false); ("created_at", PNone)] _ _).
  - repeat constructor; cbn; intuition discriminate.
  - repeat constructor; cbn; tauto.
Defined.

(** ** The generated document *)

Lemma get_all_configuration_sections (self : ManifestExplorer)
    (d md : Dict.dict pyval) :
  manifest self = PDict d ->
  section d "manifest" (PDict []) = PDict md ->
  get_all_configuration self
  = Ok {| cfg_remotes := section md "remotes" (PList []);
          cfg_defaults := section md "defaults" (PDict []);
          cfg_group_filter := section md "group-filter" (PList []);
          cfg_self := section md "self" (PDict []) |}.
Proof.
  intros Hm Hmd. unfold get_all_configuration. rewrite Hm. cbn [Py.get].
  fold (section d "manifest" (PDict [])). rewrite Hmd. reflexivity.
Qed.

(** X14.  On a loaded root document whose [manifest], [self] and
    [defaults] sections are mappings, the preview always succeeds, and
    the document has: [remotes] and [defaults] copied when their toggle is
    set and the source section is not empty; [group-filter] equal to the
    user's list when that list is not empty, whatever the source
    declares; [self] with the source's [path], and its [west-commands]
    when the toggle is set; and exactly one project, named
    [mcuxsdk-manifests], at revision [main], whose remote is the copied
    defaults' [remote] or else [nxp-mcuxpresso], and whose import list is
    the flattened selection of the panel. *)
Theorem preview_of_wellformed_document
    (strip : string -> string) (now : string) (gui : GUI)
    (d md sd dd : Dict.dict pyval) :
  manifest (explorer gui) = PDict d ->
  d <> [] ->
  section d "manifest" (PDict []) = PDict md ->
  section md "self" (PDict []) = PDict sd ->
  section md "defaults" (PDict []) = PDict dd ->
  NoDup (Dict.keys (import_vars gui)) ->
  let remotes := section md "remotes" (PList []) in
  let filters := group_filters (config (build_config_from_ui strip now gui)) in
  let with_defaults := use_defaults_var gui && Py.truthy (PDict dd) in
  exists m s,
    preview_manifest strip now gui = Ok (PDict [("manifest", PDict m)]) /\
    Dict.get m "remotes"
    = (if use_remotes_var gui && Py.truthy remotes then Some remotes else None) /\
    Dict.get m "defaults" = (if with_defaults then Some (PDict dd) else None) /\
    Dict.get m "group-filter" = (if Py.truthy filters then Some filters else None) /\
    Dict.get m "self" = Some (PDict s) /\
    Dict.get s "path" = Dict.get sd "path" /\
    Dict.get s "west-commands"
    = (if use_commands_var gui && Py.truthy (section sd "west-commands" PNone)
       then Dict.get sd "west-commands" else None) /\
    Dict.get m "projects"
    = Some (PList
              [ PDict
                  [ ("name", PStr "mcuxsdk-manifests");
                    ("remote",
                     if with_defaults
                     then section dd "remote" (PStr "nxp-mcuxpresso")
                     else PStr "nxp-mcuxpresso");
                    ("revision", PStr "main");
                    ("import",
                     PList (map PStr
                              (flat_map (selected_paths (directory_selections gui))
                                 (import_vars gui)))) ] ]).
Proof.
  intros Hm Hd Hmd Hsd Hdd Hnd remotes filters with_defaults.
  unfold preview_manifest, generate_manifest_dict.
  rewrite (flatten_panel strip now gui Hnd).
  assert (He : explorer (build_config_from_ui strip now gui) = explorer gui)
    by reflexivity.
  rewrite He, Hm.
  replace (Py.truthy (PDict d)) with true by (destruct d; [contradiction | reflexivity]).
  rewrite (get_all_configuration_sections (explorer gui) d md Hm Hmd).
  cbn [bind cfg_remotes cfg_defaults cfg_self cfg_group_filter].
  rewrite Hsd, Hdd. fold remotes.
  change (group_filters (config (build_config_from_ui strip now gui))) with filters.
  change (Py.truthy (use_nxp_remotes (config (build_config_from_ui strip now gui))))
    with (use_remotes_var gui).
  change (Py.truthy (use_nxp_defaults (config (build_config_from_ui strip now gui))))
    with (use_defaults_var gui).
  change (Py.truthy (use_nxp_west_commands (config (build_config_from_ui strip now gui))))
    with (use_commands_var gui).
  subst with_defaults. clearbody filters remotes.
  cbn [Py.contains_str Py.getitem Py.get bind]. unfold Dict.mem, section.
  destruct (use_remotes_var gui), (Py.truthy remotes), (use_defaults_var gui),
    dd as [|dkv dd], (Py.truthy filters), (Dict.get sd "path") as [pth|],
    (use_commands_var gui);
    cbn [andb Py.truthy bind];
    try (destruct (Dict.get sd "west-commands") as [w|];
         [destruct (Py.truthy w) | cbn [Py.truthy]]);
    cbn [bind]; eexists; eexists; (split; [reflexivity|]);
    repeat split; reflexivity.
Qed.

(** The example document with the edited panel: no remotes, no defaults,
    the fallback remote. *)
Lemma preview_of_wellformed_document_witness :
  exists m,
    preview_manifest Panel.no_strip "" loaded_window
    = Ok (PDict [("manifest", PDict m)]) /\
    Dict.get m "remotes" = None /\
    Dict.get m "projects"
    = Some (PList
              [ PDict
                  [ ("name", PStr "mcuxsdk-manifests");
                    ("remote", PStr "nxp-mcuxpresso");
                    ("revision", PStr "main");
                    ("import",
                     PList [ PStr "base.yml"; PStr "devices/mcx.yml";
                             PStr "middleware/foo.yml" ]) ] ]).
Proof.
  destruct (preview_of_wellformed_document Panel.no_strip "" loaded_window
              [ ("manifest",
                 PDict [ ("self",
                          PDict [ ("path", PStr "manifests");
                                  ("import",
                                   PList [ PStr "base.yml"; PStr "devices/";
                                           PStr "middleware/foo.yml" ]) ]) ]) ]
              [ ("self",
                 PDict [ ("path", PStr "manifests");
                         ("import",
                          PList [ PStr "base.yml"; PStr "devices/";
                                  PStr "middleware/foo.yml" ]) ]) ]
              [ ("path", PStr "manifests");
                ("import",
                 PList [ PStr "base.yml"; PStr "devices/";
                         PStr "middleware/foo.yml" ]) ]
              []
              eq_refl
              (fun H => match H with eq_refl => I end)
              eq_refl eq_refl eq_refl)
    as [m [s [H1 [H2 [_ [_ [_ [_ [_ H8]]]]]]]]].
  - repeat constructor; cbn; intuition discriminate.
  - exists m. split; [exact H1|]. split; [exact H2 | exact H8].
Defined.

(** X15.  A loaded root document that is not a mapping (a list, a
    string, a number), or whose [manifest] section is not a mapping,
    makes both the analysis and the generation raise [AttributeError]. *)
Theorem non_mapping_document
    (requests_get : string -> result response)
    (yaml_safe_load json_loads : string -> result pyval)
    (gui : GUI) :
  (Py.truthy (manifest (explorer gui)) = true /\
   forall d, manifest (explorer gui) <> PDict d) \/
  (exists d v, manifest (explorer gui) = PDict d /\
               Dict.get d "manifest" = Some v /\
               forall md, v <> PDict md) ->
  analyze_imports requests_get yaml_safe_load json_loads (explorer gui)
  = (Raise AttributeError, explorer gui) /\
  generate_manifest_dict gui = Raise AttributeError.
Proof.
  intros [[Ht Hn] | [d [v [Hm [Hv Hn]]]]].
  - unfold analyze_imports, generate_manifest_dict, get_all_configuration, self_imports.
    rewrite Ht. cbn [negb bind].
    destruct (manifest (explorer gui)); try (split; reflexivity).
    now elim (Hn _ eq_refl).
  - assert (Ht : Py.truthy (manifest (explorer gui)) = true).
    { rewrite Hm. destruct d; [discriminate | reflexivity]. }
    unfold analyze_imports, generate_manifest_dict, get_all_configuration, self_imports.
    rewrite Ht. cbn [negb]. cbv beta iota zeta. rewrite !Hm.
    cbn [bind Py.get]. rewrite !Hv. cbn [bind].
    destruct v; try (split; reflexivity).
    now elim (Hn _ eq_refl).
Qed.

(** A root document that is a list of file names. *)
Lemma non_mapping_document_witness :
  generate_manifest_dict list_document_window = Raise AttributeError.
Proof.
  refine (proj2 (non_mapping_document World.offline_get World.no_parse World.no_parse
                   list_document_window (or_introl (conj eq_refl _)))).
  intros d H. discriminate H.
Defined.

(** X16.  Loading a configuration replaces [self.config] and nothing
    else: the explorer and the widgets are as before, and since the next
    preview rebuilds the configuration from the widgets, the loaded
    configuration never reaches the generated document.  A file that does
    not load leaves the window exactly as it was. *)
Theorem load_config_never_reaches_preview
    (file : Type) (json_load : file -> result pyval)
    (strip : string -> string) (now later : string) (f : file) (gui : GUI) :
  let loaded := load_config json_load later f gui in
  explorer loaded = explorer gui /\
  import_vars loaded = import_vars gui /\
  directory_selections loaded = directory_selections gui /\
  build_config_from_ui strip now loaded = build_config_from_ui strip now gui /\
  preview_manifest strip now loaded = preview_manifest strip now gui /\
  (forall c, deserialize json_load later f = Ok c -> config loaded = c) /\
  (forall e, deserialize json_load later f = Raise e -> loaded = gui).
Proof.
  intros loaded. subst loaded. unfold load_config, preview_manifest.
  destruct (deserialize json_load later f) as [c|e].
  - repeat split; try reflexivity; [now intros c' [= ->] | discriminate].
  - repeat split; try reflexivity; discriminate.
Qed.

(** ** URLs *)

Lemma concat_split_from (sep : ascii) (s : string) :
  forall cur,
    String.concat (String sep "") (PyStr.split_from sep s cur) = cur ++ s.
Proof.
  induction s as [|c s IH]; intros cur; cbn [PyStr.split_from].
  - cbn. now rewrite append_nil_r.
  - destruct (Ascii.eqb c sep) eqn:E.
    + apply Ascii.eqb_eq in E. subst c.
      pose proof (split_from_nonempty sep s "") as Hne.
      pose proof (IH "") as H.
      destruct (PyStr.split_from sep s "") as [|x l]; [contradiction|].
      cbn [String.concat] in *. rewrite H. reflexivity.
    + rewrite IH, append_assoc. reflexivity.
Qed.

(** Joining what was split gives the string back. *)
Lemma join_split (sep : ascii) (s : string) :
  PyStr.join (String sep "") (PyStr.split sep s) = s.
Proof. unfold PyStr.join, PyStr.split. apply concat_split_from. Qed.

Lemma split_from_app_sep (sep : ascii) (a b : string) :
  forall cur,
    PyStr.split_from sep (a ++ String sep b) cur
    = (PyStr.split_from sep a cur ++ PyStr.split_from sep b "")%list.
Proof.
  induction a as [|c a IH]; intros cur.
  - cbn. now rewrite Ascii.eqb_refl.
  - cbn [append PyStr.split_from]. destruct (Ascii.eqb c sep); now rewrite IH.
Qed.

(** X17.  The base URL of an explorer is its manifest URL without the
    last segment: for a URL [b/f] where [f] holds no ['/'], it is [b]. *)
Theorem base_url_drops_last_segment (b f : string) :
  free_of "/" f = true ->
  let self := ManifestExplorer_init (Some (b ++ "/" ++ f)) in
  manifest_url self = b ++ "/" ++ f /\ base_url self = b.
Proof.
  intros Hf self. subst self. unfold ManifestExplorer_init.
  assert (Hne : String.eqb (b ++ "/" ++ f) "" = false) by now destruct b.
  rewrite Hne. cbn [manifest_url base_url]. split; [reflexivity|].
  unfold PyStr.split. change ("/" ++ f) with (String "/" f).
  rewrite split_from_app_sep, (split_from_free "/" f Hf), removelast_last.
  apply join_split.
Qed.

(** The explorer of the window. *)
Lemma base_url_drops_last_segment_witness :
  base_url (ManifestExplorer_init None)
  = "https://raw.githubusercontent.com/nxp-mcuxpresso/mcuxsdk-manifests/main".
Proof.
  exact (proj2 (base_url_drops_last_segment
                  "https://raw.githubusercontent.com/nxp-mcuxpresso/mcuxsdk-manifests/main"
                  "west.yml" eq_refl)).
Defined.

(** X18.  For the explorer the window creates, the listing of a directory
    is requested from the contents endpoint of the manifest repository,
    at the directory's path. *)
Theorem api_url_of_window (dir_path : string) :
  api_url (explorer (GUI_init "")) dir_path
  = "https://api.github.com/repos/nxp-mcuxpresso/mcuxsdk-manifests/contents/"
    ++ dir_path.
Proof.
  unfold api_url. cbn. now rewrite append_nil_r.
Qed.

(** ** Manifests that import files only *)

Lemma analyze_yml
    (requests_get : string -> result response)
    (json_loads : string -> result pyval)
    (self : ManifestExplorer) (p : string) :
  PyStr.endswith ".yml" p = true ->
  _analyze_import_path requests_get json_loads self p = file_info p.
Proof.
  intros Hy. unfold _analyze_import_path, file_info. rewrite Hy. do 2 f_equal.
  apply Path_name_last_segment; [now apply endswith_yml_not_slash|].
  apply endswith_iff in Hy. destruct Hy as [a ->].
  rewrite (last_segment_app_free a ".yml" eq_refl).
  destruct (PyStr.last_segment "/" a) as [|c [|c' s]]; discriminate.
Qed.

Lemma set_keyed (f : string -> import_info) (ks : list string) (k : string) :
  Dict.set (map (fun p => (p, f p)) ks) k (f k)
  = map (fun p => (p, f p)) (push_key ks k).
Proof.
  unfold push_key, mem_key. induction ks as [|x ks IH]; [reflexivity|].
  cbn [map Dict.set existsb]. rewrite (String.eqb_sym k x).
  destruct (String.eqb x k) eqn:E.
  - apply String.eqb_eq in E. now subst x.
  - cbn [orb]. rewrite IH.
    now destruct (existsb (String.eqb k) ks).
Qed.

(** X19.  A root document whose string entries all end in [.yml] is
    analyzed without any request: whatever the remote, the mapping has one
    file entry per distinct declared path, in declaration order, named by
    the last segment of the path. *)
Theorem analysis_of_explicit_files
    (requests_get : string -> result response)
    (json_loads : string -> result pyval)
    (self : ManifestExplorer) (l : list pyval) :
  Forall (fun s => PyStr.endswith ".yml" s = true) (string_entries l) ->
  analyze_loop requests_get json_loads self l
  = map (fun p => (p, file_info p)) (uniq (string_entries l)).
Proof.
  intros H. rewrite <- uniq_fold. unfold analyze_loop.
  change (@nil (string * import_info))
    with (map (fun p => (p, file_info p)) (@nil string)).
  generalize (@nil string). revert H.
  induction l as [|v l IH]; intros H ks; [reflexivity|].
  cbn [fold_left]. destruct v; try (apply IH; exact H).
  cbn [string_entries flat_map app] in H |- *.
  inversion H as [|? ? Hs Hl]; subst.
  rewrite (analyze_yml requests_get json_loads self s Hs), set_keyed.
  cbn [fold_left]. now apply IH.
Qed.

(** Two files, one declared twice, and a number. *)
Lemma analysis_of_explicit_files_witness :
  analyze_loop World.offline_get World.no_parse World.fresh
    [PStr "base.yml"; PInt 7; PStr "rtos/rtos.yml"; PStr "base.yml"]
  = [ ("base.yml", file_info "base.yml");
      ("rtos/rtos.yml", file_info "rtos/rtos.yml") ].
Proof.
  refine (analysis_of_explicit_files World.offline_get World.no_parse World.fresh
            [PStr "base.yml"; PInt 7; PStr "rtos/rtos.yml"; PStr "base.yml"] _).
  repeat constructor.
Defined.
